(** * VsyncModulator: a shallow embedding of
    services/surfaceflinger/Scheduler/VsyncModulator.cpp

    The modulator picks, for every display refresh, one of three vsync
    offset configurations (early, earlyGpu, late).  Each C++ method becomes a
    computation in a small state-and-log monad: the state is the object's
    member fields, the log records, in program order, the acquisitions and
    releases of [mMutex], the member stores, and the calls made to the binder
    (linkToDeath / unlinkToDeath) and to the logger (ALOGW).

    What the translation unit takes from VsyncModulator.h, which is not
    available, is kept abstract or marked as modelled: the type [VsyncConfig]
    and the two frame constants [MIN_EARLY_TRANSACTION_FRAMES] and
    [MIN_EARLY_GPU_FRAMES] are the fields of the class [Header], and the
    default member initialisers are those of [VsyncModulator_new].  The
    SFTRACE_INT calls of updateVsyncConfigLocked only feed the tracing sink
    and are left out. *)

From Stdlib Require Import ZArith List Bool Lia.
From stdpp Require Import base decidable option list gmap sets strings.

Local Open Scope Z_scope.

#[local] Set Warnings "-clear-no-such-hyp".

(** ** Data model *)

(** [TransactionSchedule], used in the source under the alias [Schedule]. *)
Module Schedule.
Inductive t : Set := Late | EarlyStart | EarlyEnd.

#[global] Instance eq_dec : EqDecision t.
Proof. solve_decision. Defined.
End Schedule.

Module VsyncConfigType.
Inductive t : Set := Early | EarlyGpu | Late.

#[global] Instance eq_dec : EqDecision t.
Proof. solve_decision. Defined.
End VsyncConfigType.

(** A binder object is known to the modulator by its identity only: the set
    [mEarlyWakeupRequests] is keyed on the [wp<IBinder>].  A null [sp<IBinder>]
    is [None]. *)
Abbreviation Token := positive (only parsing).

(** Time points and durations, in nanoseconds.  The source keeps them in 64
    bits; here they are integers, and the one sum the source takes (in
    [onDisplayRefresh]) is taken without wrap-around.  The properties that
    depend on the outcome of that comparison assume [stamps_fit]: both time
    marks are 64-bit values and so is the sum. *)
Abbreviation TimePoint := Z (only parsing).

(** [MIN_EARLY_TRANSACTION_TIME = 1ms]. *)
Definition MIN_EARLY_TRANSACTION_TIME : Z := 1000000.

(** The members a method can write. *)
Inductive Field : Set :=
| FVsyncConfigSet
| FVsyncConfig
| FEarlyWakeupRequests
| FTransactionSchedule
| FEarlyTransactionFrames
| FEarlyGpuFrames
| FRefreshRateChangePending
| FEarlyTransactionStartTime
| FLastTransactionCommitTime.

#[global] Instance Field_eq_dec : EqDecision Field.
Proof. solve_decision. Defined.

(** What a method does besides computing: taking and dropping [mMutex]
    (the constructor and destructor of a [std::lock_guard]), writing a member,
    and calling out to the binder or the logger. *)
Inductive Event : Set :=
| Lock
| Unlock
| Store (f : Field)
| LinkToDeath (token : Token)
| UnlinkToDeath (token : Token)
| Warn (msg : string).

#[global] Instance Event_eq_dec : EqDecision Event.
Proof. solve_decision. Defined.

(** What the translation unit uses of VsyncModulator.h: the type of an offset
    configuration, which the modulator stores, copies and returns but never
    inspects, and the two frame counts a decay counter is set to when its
    window opens. *)
Class Header : Type := {
  VsyncConfig : Type;
  MIN_EARLY_TRANSACTION_FRAMES : Z;
  MIN_EARLY_GPU_FRAMES : Z
}.

Section Modulator.

Context {header : Header}.

Record VsyncConfigSet : Type := mkVsyncConfigSet {
  early : VsyncConfig;
  earlyGpu : VsyncConfig;
  late : VsyncConfig
}.

Definition VsyncConfigOpt : Type := option VsyncConfig.

(** The member fields.  The two frame counters are C++ integers; they are only
    ever decremented when positive and otherwise assigned a constant, so no
    arithmetic on them can wrap and they are kept in [Z]. *)
Record VsyncModulator : Type := mkVsyncModulator {
  mVsyncConfigSet : VsyncConfigSet;
  mVsyncConfig : VsyncConfig;
  mEarlyWakeupRequests : gset Token;
  mTransactionSchedule : Schedule.t;
  mEarlyTransactionFrames : Z;
  mEarlyGpuFrames : Z;
  mRefreshRateChangePending : bool;
  mEarlyTransactionStartTime : TimePoint;
  mLastTransactionCommitTime : TimePoint
}.

Definition with_mVsyncConfigSet (v : VsyncConfigSet) (s : VsyncModulator) :=
  mkVsyncModulator v (mVsyncConfig s) (mEarlyWakeupRequests s)
    (mTransactionSchedule s) (mEarlyTransactionFrames s) (mEarlyGpuFrames s)
    (mRefreshRateChangePending s) (mEarlyTransactionStartTime s)
    (mLastTransactionCommitTime s).

Definition with_mVsyncConfig (v : VsyncConfig) (s : VsyncModulator) :=
  mkVsyncModulator (mVsyncConfigSet s) v (mEarlyWakeupRequests s)
    (mTransactionSchedule s) (mEarlyTransactionFrames s) (mEarlyGpuFrames s)
    (mRefreshRateChangePending s) (mEarlyTransactionStartTime s)
    (mLastTransactionCommitTime s).

Definition with_mEarlyWakeupRequests (v : gset Token) (s : VsyncModulator) :=
  mkVsyncModulator (mVsyncConfigSet s) (mVsyncConfig s) v
    (mTransactionSchedule s) (mEarlyTransactionFrames s) (mEarlyGpuFrames s)
    (mRefreshRateChangePending s) (mEarlyTransactionStartTime s)
    (mLastTransactionCommitTime s).

Definition with_mTransactionSchedule (v : Schedule.t) (s : VsyncModulator) :=
  mkVsyncModulator (mVsyncConfigSet s) (mVsyncConfig s) (mEarlyWakeupRequests s)
    v (mEarlyTransactionFrames s) (mEarlyGpuFrames s)
    (mRefreshRateChangePending s) (mEarlyTransactionStartTime s)
    (mLastTransactionCommitTime s).

Definition with_mEarlyTransactionFrames (v : Z) (s : VsyncModulator) :=
  mkVsyncModulator (mVsyncConfigSet s) (mVsyncConfig s) (mEarlyWakeupRequests s)
    (mTransactionSchedule s) v (mEarlyGpuFrames s)
    (mRefreshRateChangePending s) (mEarlyTransactionStartTime s)
    (mLastTransactionCommitTime s).

Definition with_mEarlyGpuFrames (v : Z) (s : VsyncModulator) :=
  mkVsyncModulator (mVsyncConfigSet s) (mVsyncConfig s) (mEarlyWakeupRequests s)
    (mTransactionSchedule s) (mEarlyTransactionFrames s) v
    (mRefreshRateChangePending s) (mEarlyTransactionStartTime s)
    (mLastTransactionCommitTime s).

Definition with_mRefreshRateChangePending (v : bool) (s : VsyncModulator) :=
  mkVsyncModulator (mVsyncConfigSet s) (mVsyncConfig s) (mEarlyWakeupRequests s)
    (mTransactionSchedule s) (mEarlyTransactionFrames s) (mEarlyGpuFrames s)
    v (mEarlyTransactionStartTime s) (mLastTransactionCommitTime s).

Definition with_mEarlyTransactionStartTime (v : TimePoint) (s : VsyncModulator) :=
  mkVsyncModulator (mVsyncConfigSet s) (mVsyncConfig s) (mEarlyWakeupRequests s)
    (mTransactionSchedule s) (mEarlyTransactionFrames s) (mEarlyGpuFrames s)
    (mRefreshRateChangePending s) v (mLastTransactionCommitTime s).

Definition with_mLastTransactionCommitTime (v : TimePoint) (s : VsyncModulator) :=
  mkVsyncModulator (mVsyncConfigSet s) (mVsyncConfig s) (mEarlyWakeupRequests s)
    (mTransactionSchedule s) (mEarlyTransactionFrames s) (mEarlyGpuFrames s)
    (mRefreshRateChangePending s) (mEarlyTransactionStartTime s) v.

(** Modelled from the spec: the default member initialisers are in
    VsyncModulator.h, which is missing; the constructor in the translation
    unit only stores the configuration set and the clock.  The spec calls the
    start "the empty initial state" and [Late] "the default/idle state": no
    pending request, schedule [Late], both counters zero, no refresh-rate
    change pending, both time marks at the clock's origin, and the late
    configuration active. *)
Definition VsyncModulator_new (config : VsyncConfigSet) : VsyncModulator :=
  mkVsyncModulator config (late config) ∅ Schedule.Late 0 0 false 0 0.

(** ** The monad of a method body *)

Definition M (A : Type) : Type :=
  VsyncModulator → A * VsyncModulator * list Event.

#[local] Instance M_ret : MRet M := λ A a s, (a, s, []).

#[local] Instance M_bind : MBind M := λ A B f m s,
  let '(a, s1, l1) := m s in
  let '(b, s2, l2) := f a s1 in
  (b, s2, l1 ++ l2).

(** Reading a member, or evaluating a const method. *)
Definition load {A : Type} (f : VsyncModulator → A) : M A :=
  λ s, (f s, s, []).

(** Writing a member. *)
Definition store (fld : Field) (upd : VsyncModulator → VsyncModulator) : M unit :=
  λ s, (tt, upd s, [Store fld]).

Definition emit (e : Event) : M unit := λ s, (tt, s, [e]).

(** [std::lock_guard<std::mutex> lock(mMutex);] at the head of a scope: the
    mutex is taken, the scope runs, and the mutex is dropped on every way out
    of the scope. *)
Definition lock_guard {A : Type} (body : M A) : M A :=
  emit Lock;; r ← body; emit Unlock;; mret r.

(** [mEarlyWakeupRequests.emplace(token)] *)
Definition emplace (token : Token) : M unit :=
  store FEarlyWakeupRequests
    (λ s, with_mEarlyWakeupRequests ({[token]} ∪ mEarlyWakeupRequests s) s).

(** [mEarlyWakeupRequests.erase(token)], which returns the number of elements
    removed. *)
Definition erase (token : Token) : M Z :=
  n ← load (λ s, if bool_decide (token ∈ mEarlyWakeupRequests s) then 1 else 0);
  store FEarlyWakeupRequests
    (λ s, with_mEarlyWakeupRequests (mEarlyWakeupRequests s ∖ {[token]}) s);;
  mret n.

(** The final state, the returned value and the log of a run. *)
Definition exec {A : Type} (m : M A) (s : VsyncModulator) : VsyncModulator :=
  (m s).1.2.
Definition result {A : Type} (m : M A) (s : VsyncModulator) : A :=
  (m s).1.1.
Definition events {A : Type} (m : M A) (s : VsyncModulator) : list Event :=
  (m s).2.

(** ** The methods, in the order of the translation unit *)

Definition getNextVsyncConfigType (s : VsyncModulator) : VsyncConfigType.t :=
  if bool_decide (mEarlyWakeupRequests s ≠ ∅)
     || bool_decide (mTransactionSchedule s = Schedule.EarlyEnd)
     || bool_decide (0 < mEarlyTransactionFrames s)
     || mRefreshRateChangePending s
  then VsyncConfigType.Early
  else if bool_decide (0 < mEarlyGpuFrames s)
  then VsyncConfigType.EarlyGpu
  else VsyncConfigType.Late.

Definition getNextVsyncConfig (s : VsyncModulator) : VsyncConfig :=
  match getNextVsyncConfigType s with
  | VsyncConfigType.Early => early (mVsyncConfigSet s)
  | VsyncConfigType.EarlyGpu => earlyGpu (mVsyncConfigSet s)
  | VsyncConfigType.Late => late (mVsyncConfigSet s)
  end.

Definition updateVsyncConfigLocked : M VsyncConfig :=
  offsets ← load getNextVsyncConfig;
  store FVsyncConfig (with_mVsyncConfig offsets);;
  mret offsets.

Definition updateVsyncConfig : M VsyncConfig :=
  lock_guard updateVsyncConfigLocked.

Definition setVsyncConfigSet (config : VsyncConfigSet) : M VsyncConfig :=
  lock_guard (
    store FVsyncConfigSet (with_mVsyncConfigSet config);;
    updateVsyncConfigLocked).

(** [now] is the value the injected clock [mNow] returns if the call reads
    it. *)
Definition setTransactionSchedule (now : TimePoint)
    (schedule : Schedule.t) (token : option Token) : M VsyncConfigOpt :=
  lock_guard (
    match schedule with
    | Schedule.EarlyStart =>
        match token with
        | Some t => emplace t;; emit (LinkToDeath t)
        | None =>
            emit (Warn "setTransactionSchedule: EarlyStart requested without a valid token")
        end
    | Schedule.EarlyEnd =>
        match token with
        | Some t =>
            n ← erase t;
            if bool_decide (0 < n) then emit (UnlinkToDeath t)
            else emit (Warn "setTransactionSchedule: Unexpected EarlyEnd")
        | None => emit (Warn "setTransactionSchedule: Unexpected EarlyEnd")
        end
    | Schedule.Late => mret tt
    end;;
    reqs ← load mEarlyWakeupRequests;
    (if bool_decide (reqs = ∅) && bool_decide (schedule = Schedule.EarlyEnd)
     then
       store FEarlyTransactionFrames
         (with_mEarlyTransactionFrames MIN_EARLY_TRANSACTION_FRAMES);;
       store FEarlyTransactionStartTime (with_mEarlyTransactionStartTime now)
     else mret tt);;
    cur ← load mTransactionSchedule;
    if bool_decide (schedule = cur) || bool_decide (cur = Schedule.EarlyEnd)
    then mret None
    else
      store FTransactionSchedule (with_mTransactionSchedule schedule);;
      offsets ← updateVsyncConfigLocked;
      mret (Some offsets)).

Definition onTransactionCommit (now : TimePoint) : M VsyncConfigOpt :=
  store FLastTransactionCommitTime (with_mLastTransactionCommitTime now);;
  cur ← load mTransactionSchedule;
  if bool_decide (cur = Schedule.Late) then mret None
  else
    store FTransactionSchedule (with_mTransactionSchedule Schedule.Late);;
    offsets ← updateVsyncConfig;
    mret (Some offsets).

Definition onRefreshRateChangeInitiated : M VsyncConfigOpt :=
  pending ← load mRefreshRateChangePending;
  if (pending : bool) then mret None
  else
    store FRefreshRateChangePending (with_mRefreshRateChangePending true);;
    offsets ← updateVsyncConfig;
    mret (Some offsets).

Definition onRefreshRateChangeCompleted : M VsyncConfigOpt :=
  pending ← load mRefreshRateChangePending;
  if negb pending then mret None
  else
    store FRefreshRateChangePending (with_mRefreshRateChangePending false);;
    offsets ← updateVsyncConfig;
    mret (Some offsets).

(** The local [updateOffsetsNeeded] is threaded through the two blocks.  The
    sum of the time test is taken without wrap-around: it is the source's
    64-bit sum on every state with [stamps_fit]. *)
Definition onDisplayRefresh (usedGpuComposition : bool) : M VsyncConfigOpt :=
  start ← load mEarlyTransactionStartTime;
  commit ← load mLastTransactionCommitTime;
  updateOffsetsNeeded ←
    (if bool_decide (start + MIN_EARLY_TRANSACTION_TIME ≤ commit) then
       frames ← load mEarlyTransactionFrames;
       if bool_decide (0 < frames) then
         store FEarlyTransactionFrames (with_mEarlyTransactionFrames (frames - 1));;
         mret true
       else mret false
     else mret false);
  updateOffsetsNeeded ←
    (if usedGpuComposition then
       store FEarlyGpuFrames (with_mEarlyGpuFrames MIN_EARLY_GPU_FRAMES);;
       mret true
     else
       frames ← load mEarlyGpuFrames;
       if bool_decide (0 < frames) then
         store FEarlyGpuFrames (with_mEarlyGpuFrames (frames - 1));;
         mret true
       else mret updateOffsetsNeeded);
  if negb updateOffsetsNeeded then mret None
  else
    offsets ← updateVsyncConfig;
    mret (Some offsets).

Definition getVsyncConfig : M VsyncConfig :=
  lock_guard (load mVsyncConfig).

Definition binderDied (who : Token) : M unit :=
  lock_guard (
    erase who;;
    updateVsyncConfigLocked;;
    mret tt).

Definition isVsyncConfigEarly : M bool :=
  lock_guard (
    kind ← load getNextVsyncConfigType;
    mret (bool_decide (kind ≠ VsyncConfigType.Late))).

(** ** Calls and runs *)

(** One call of a public method, with its arguments (and the clock reading
    for the two methods that consult [mNow]). *)
Inductive Call : Type :=
| CallSetVsyncConfigSet (config : VsyncConfigSet)
| CallSetTransactionSchedule (now : TimePoint) (schedule : Schedule.t)
    (token : option Token)
| CallOnTransactionCommit (now : TimePoint)
| CallOnRefreshRateChangeInitiated
| CallOnRefreshRateChangeCompleted
| CallOnDisplayRefresh (usedGpuComposition : bool)
| CallGetVsyncConfig
| CallBinderDied (who : Token)
| CallIsVsyncConfigEarly.

Definition discard {A : Type} (m : M A) : M unit :=
  λ s, (tt, exec m s, events m s).

Definition call (c : Call) : M unit :=
  match c with
  | CallSetVsyncConfigSet config => discard (setVsyncConfigSet config)
  | CallSetTransactionSchedule now schedule token =>
      discard (setTransactionSchedule now schedule token)
  | CallOnTransactionCommit now => discard (onTransactionCommit now)
  | CallOnRefreshRateChangeInitiated => discard onRefreshRateChangeInitiated
  | CallOnRefreshRateChangeCompleted => discard onRefreshRateChangeCompleted
  | CallOnDisplayRefresh usedGpuComposition =>
      discard (onDisplayRefresh usedGpuComposition)
  | CallGetVsyncConfig => discard getVsyncConfig
  | CallBinderDied who => discard (binderDied who)
  | CallIsVsyncConfigEarly => discard isVsyncConfigEarly
  end.

(** The calls of a list, one after the other. *)
Definition run_calls (calls : list Call) (s : VsyncModulator) : VsyncModulator :=
  fold_left (λ st c, exec (call c) st) calls s.

(** A [setTransactionSchedule] request as a call. *)
Definition request_call (r : TimePoint * Schedule.t * option Token) : Call :=
  CallSetTransactionSchedule r.1.1 r.1.2 r.2.

(** [n] refreshes in a row, none of them GPU-composited. *)
Definition refreshes (n : nat) (s : VsyncModulator) : VsyncModulator :=
  Nat.iter n (exec (onDisplayRefresh false)) s.

(** Nothing but the transaction counter can make the state urgent, and the
    last commit came at least [MIN_EARLY_TRANSACTION_TIME] after the counter
    was set, so that refreshes count it down. *)
Definition grace_only (s : VsyncModulator) : Prop :=
  mEarlyWakeupRequests s = ∅
  ∧ mTransactionSchedule s = Schedule.Late
  ∧ mRefreshRateChangePending s = false
  ∧ mEarlyGpuFrames s = 0
  ∧ mEarlyTransactionStartTime s + MIN_EARLY_TRANSACTION_TIME
      ≤ mLastTransactionCommitTime s.

Definition is_onTransactionCommit (c : Call) : bool :=
  match c with CallOnTransactionCommit _ => true | _ => false end.

(** A request that can move the stored schedule away from [Late]. *)
Definition rearms (c : Call) : bool :=
  match c with
  | CallSetTransactionSchedule _ Schedule.EarlyStart _
  | CallSetTransactionSchedule _ Schedule.EarlyEnd _ => true
  | _ => false
  end.

Definition is_onDisplayRefresh (c : Call) : bool :=
  match c with CallOnDisplayRefresh _ => true | _ => false end.

(** The two events that set a decay counter back to its constant: an
    [EarlyEnd] request after which no request is pending, and a refresh that
    used GPU composition. *)
Definition resets_transaction_frames (c : Call) (s : VsyncModulator) : bool :=
  match c with
  | CallSetTransactionSchedule _ Schedule.EarlyEnd _ =>
      bool_decide (mEarlyWakeupRequests (exec (call c) s) = ∅)
  | _ => false
  end.

Definition resets_gpu_frames (c : Call) : bool :=
  match c with CallOnDisplayRefresh true => true | _ => false end.

(** Any of the four urgency signals of the classification. *)
Definition urgent (s : VsyncModulator) : Prop :=
  mEarlyWakeupRequests s ≠ ∅
  ∨ mTransactionSchedule s = Schedule.EarlyEnd
  ∨ 0 < mEarlyTransactionFrames s
  ∨ mRefreshRateChangePending s = true.

(** A request made without the token it needs: no token at all, or, for an
    [EarlyEnd], a token that is not pending. *)
Definition token_missing (token : option Token) (s : VsyncModulator) : Prop :=
  match token with
  | None => True
  | Some t => t ∉ mEarlyWakeupRequests s
  end.

(** ** Reading a log for the lock discipline *)





(** ** Notions for the properties of whole runs *)

(** The active configuration is the one the classification selects. *)
Definition coherent (s : VsyncModulator) : Prop :=
  mVsyncConfig s = getNextVsyncConfig s.

(** One of the three members of a configuration set. *)
Definition member_of (set : VsyncConfigSet) (config : VsyncConfig) : Prop :=
  config = early set ∨ config = earlyGpu set ∨ config = late set.


(** The calls that take a token out of the pending set. *)
Definition releases (t : Token) (c : Call) : bool :=
  match c with
  | CallSetTransactionSchedule _ Schedule.EarlyEnd (Some t') =>
      bool_decide (t' = t)
  | CallBinderDied who => bool_decide (who = t)
  | _ => false
  end.

Definition is_onRefreshRateChangeCompleted (c : Call) : bool :=
  match c with CallOnRefreshRateChangeCompleted => true | _ => false end.

(** An [EarlyStart] with a token while [EarlyStart] is already stored. *)
Definition repeats_EarlyStart (c : Call) (s : VsyncModulator) : bool :=
  match c with
  | CallSetTransactionSchedule _ Schedule.EarlyStart (Some _) =>
      bool_decide (mTransactionSchedule s = Schedule.EarlyStart)
  | _ => false
  end.

(** What a caller may rely on when a method hands back an optional
    configuration: a returned one is the active one and the classified one,
    and when none is returned the active one has not moved. *)
Definition reports_active (m : M VsyncConfigOpt) (s : VsyncModulator) : Prop :=
  match result m s with
  | Some offsets =>
      mVsyncConfig (exec m s) = offsets
      ∧ offsets = getNextVsyncConfig (exec m s)
  | None => mVsyncConfig (exec m s) = mVsyncConfig s
  end.

(** The members a call may write. *)
Definition footprint (c : Call) : list Field :=
  match c with
  | CallSetVsyncConfigSet _ => [FVsyncConfigSet; FVsyncConfig]
  | CallSetTransactionSchedule _ Schedule.Late _ =>
      [FTransactionSchedule; FVsyncConfig]
  | CallSetTransactionSchedule _ Schedule.EarlyStart _ =>
      [FEarlyWakeupRequests; FTransactionSchedule; FVsyncConfig]
  | CallSetTransactionSchedule _ Schedule.EarlyEnd _ =>
      [FEarlyWakeupRequests; FEarlyTransactionFrames;
       FEarlyTransactionStartTime; FTransactionSchedule; FVsyncConfig]
  | CallOnTransactionCommit _ =>
      [FLastTransactionCommitTime; FTransactionSchedule; FVsyncConfig]
  | CallOnRefreshRateChangeInitiated | CallOnRefreshRateChangeCompleted =>
      [FRefreshRateChangePending; FVsyncConfig]
  | CallOnDisplayRefresh _ =>
      [FEarlyTransactionFrames; FEarlyGpuFrames; FVsyncConfig]
  | CallGetVsyncConfig | CallIsVsyncConfigEarly => []
  | CallBinderDied _ => [FEarlyWakeupRequests; FVsyncConfig]
  end.

(** The member [f] has the same value in both states. *)
Definition same_field (f : Field) (s s' : VsyncModulator) : Prop :=
  match f with
  | FVsyncConfigSet => mVsyncConfigSet s' = mVsyncConfigSet s
  | FVsyncConfig => mVsyncConfig s' = mVsyncConfig s
  | FEarlyWakeupRequests => mEarlyWakeupRequests s' = mEarlyWakeupRequests s
  | FTransactionSchedule => mTransactionSchedule s' = mTransactionSchedule s
  | FEarlyTransactionFrames =>
      mEarlyTransactionFrames s' = mEarlyTransactionFrames s
  | FEarlyGpuFrames => mEarlyGpuFrames s' = mEarlyGpuFrames s
  | FRefreshRateChangePending =>
      mRefreshRateChangePending s' = mRefreshRateChangePending s
  | FEarlyTransactionStartTime =>
      mEarlyTransactionStartTime s' = mEarlyTransactionStartTime s
  | FLastTransactionCommitTime =>
      mLastTransactionCommitTime s' = mLastTransactionCommitTime s
  end.

(** ** The range of the time marks *)

Definition INT64_MIN : Z := - 2 ^ 63.
Definition INT64_MAX : Z := 2 ^ 63 - 1.

(** Two's-complement wrap-around of a 64-bit sum. *)
Definition wrap64 (z : Z) : Z := (z - INT64_MIN) mod 2 ^ 64 + INT64_MIN.

(** Both time marks are 64-bit values, and adding
    [MIN_EARLY_TRANSACTION_TIME] to the start of the grace window does not
    overflow: the comparison of [onDisplayRefresh] then is the one the
    source makes. *)
Definition stamps_fit (s : VsyncModulator) : Prop :=
  INT64_MIN ≤ mEarlyTransactionStartTime s
  ∧ mEarlyTransactionStartTime s + MIN_EARLY_TRANSACTION_TIME ≤ INT64_MAX
  ∧ INT64_MIN ≤ mLastTransactionCommitTime s
  ∧ mLastTransactionCommitTime s ≤ INT64_MAX.

(** ** More readings of a log *)






End Modulator.

(** ** A sample session *)

(** Configurations told apart by a number and both frame constants at 2; a
    configuration set, two binders, and the states of a short session. *)
Definition sample_header : Header :=
  {| VsyncConfig := Z;
     MIN_EARLY_TRANSACTION_FRAMES := 2;
     MIN_EARLY_GPU_FRAMES := 2 |}.

Section Session.

#[local] Existing Instance sample_header.

Definition sample_configs : VsyncConfigSet := mkVsyncConfigSet 1 2 3.

Definition binderA : positive := 1%positive.
Definition binderB : positive := 2%positive.

Definition fresh : VsyncModulator := VsyncModulator_new sample_configs.

Definition after_request : VsyncModulator :=
  exec (setTransactionSchedule 0 Schedule.EarlyStart (Some binderA)) fresh.

Definition after_end : VsyncModulator :=
  exec (setTransactionSchedule 10 Schedule.EarlyEnd (Some binderA))
    after_request.

Definition after_commit : VsyncModulator :=
  exec (onTransactionCommit 20) after_end.

Definition after_late_commit : VsyncModulator :=
  exec (onTransactionCommit 2000000) after_end.

(** A token-less [EarlyStart] followed by one with a token. *)
Definition stale : VsyncModulator :=
  exec (setTransactionSchedule 1 Schedule.EarlyStart (Some binderA))
    (exec (setTransactionSchedule 0 Schedule.EarlyStart None) fresh).

Definition sample_calls : list Call :=
  [ CallSetTransactionSchedule 0 Schedule.EarlyStart (Some binderA);
    CallSetTransactionSchedule 10 Schedule.EarlyEnd (Some binderA);
    CallOnDisplayRefresh true;
    CallOnTransactionCommit 2000000;
    CallOnDisplayRefresh false;
    CallBinderDied binderB ].

(** Calls between two commits that leave a stored [Late] alone. *)
Definition quiet_calls : list Call :=
  [ CallOnDisplayRefresh true;
    CallSetTransactionSchedule 30 Schedule.Late (Some binderB);
    CallOnRefreshRateChangeInitiated;
    CallBinderDied binderA ].

(** An [EarlyStart] request after the commit of the session. *)
Definition after_rearm : VsyncModulator :=
  exec (setTransactionSchedule 30 Schedule.EarlyStart (Some binderB))
    after_commit.

Definition sample_requests : list (Z * Schedule.t * option positive) :=
  [ (30, Schedule.Late, None); (31, Schedule.EarlyStart, Some binderB) ].

(** Calls that neither end the request of [binderA] nor report its death. *)
Definition other_calls : list Call :=
  [ CallOnDisplayRefresh true;
    CallSetTransactionSchedule 30 Schedule.Late (Some binderB);
    CallOnTransactionCommit 40;
    CallBinderDied binderB;
    CallSetTransactionSchedule 50 Schedule.EarlyEnd (Some binderB) ].

End Session.

Section Properties.

Context {header : Header}.

(** ** Proof support *)

Ltac unfold_methods :=
  unfold call, discard in *;
  unfold exec, result, events,
    setVsyncConfigSet, setTransactionSchedule, onTransactionCommit,
    onRefreshRateChangeInitiated, onRefreshRateChangeCompleted,
    onDisplayRefresh, getVsyncConfig, binderDied, isVsyncConfigEarly,
    updateVsyncConfig, lock_guard, updateVsyncConfigLocked, emplace, erase in *;
  cbv [mbind mret M_bind M_ret emit load store] in *.

Ltac simpl_state :=
  cbn [fst snd app andb orb negb
       mVsyncConfigSet mVsyncConfig mEarlyWakeupRequests mTransactionSchedule
       mEarlyTransactionFrames mEarlyGpuFrames mRefreshRateChangePending
       mEarlyTransactionStartTime mLastTransactionCommitTime
       with_mVsyncConfigSet with_mVsyncConfig with_mEarlyWakeupRequests
       with_mTransactionSchedule with_mEarlyTransactionFrames
       with_mEarlyGpuFrames with_mRefreshRateChangePending
       with_mEarlyTransactionStartTime with_mLastTransactionCommitTime] in *.

Ltac case_flag :=
  match goal with
  | |- context [if ?b then _ else _] => is_var b; destruct b
  | |- context [if negb ?b then _ else _] => is_var b; destruct b
  end.

Ltac crunch :=
  simpl_state;
  repeat (first [case_bool_decide | case_flag]; simplify_eq; simpl_state).

(** Membership in a log that is spelled out. *)
Ltac in_log :=
  repeat first [apply list_elem_of_here | apply list_elem_of_further].

Ltac not_in_log :=
  rewrite ?not_elem_of_cons; split_and?; first [done | apply not_elem_of_nil].

Ltac log_goal :=
  match goal with
  | |- _ ∈ _ => in_log
  | |- _ ∉ _ => not_in_log
  end.

(** Unfold a run on an arbitrary state down to its branches. *)
Ltac run_on s :=
  unfold_methods;
  destruct s as [configs active requests stored frames gpuFrames pending
                   started committed];
  crunch.

(** ** The classification *)

Lemma getNextVsyncConfigType_urgent s :
  urgent s → getNextVsyncConfigType s = VsyncConfigType.Early.
Proof.
  unfold urgent, getNextVsyncConfigType. intros Hu.
  destruct (mRefreshRateChangePending s); crunch; try done.
  all: exfalso; destruct Hu as [?|[?|[?|?]]]; done.
Qed.

Lemma getNextVsyncConfigType_calm s :
  ¬ urgent s →
  getNextVsyncConfigType s =
    if bool_decide (0 < mEarlyGpuFrames s) then VsyncConfigType.EarlyGpu
    else VsyncConfigType.Late.
Proof.
  unfold urgent, getNextVsyncConfigType. intros Hu.
  destruct (mRefreshRateChangePending s); crunch; try done.
  all: exfalso; apply Hu; auto.
Qed.

#[local] Instance urgent_dec s : Decision (urgent s).
Proof. unfold urgent. apply _. Defined.

(** C1. The classification is the priority cascade: [Early] exactly when one
    of the four urgency signals is live (a pending request, a stored
    [EarlyEnd], a positive transaction counter, a pending refresh-rate
    change); otherwise [EarlyGpu] exactly when the GPU counter is positive;
    otherwise [Late].  A state with a pending request classifies as [Early]
    whatever the two counters are. *)
Theorem getNextVsyncConfigType_cascade (s : VsyncModulator) :
  (getNextVsyncConfigType s = VsyncConfigType.Early ↔ urgent s)
  ∧ (getNextVsyncConfigType s = VsyncConfigType.EarlyGpu
       ↔ ¬ urgent s ∧ 0 < mEarlyGpuFrames s)
  ∧ (getNextVsyncConfigType s = VsyncConfigType.Late
       ↔ ¬ urgent s ∧ ¬ 0 < mEarlyGpuFrames s)
  ∧ (∀ (token : Token) (frames gpuFrames : Z),
       getNextVsyncConfigType
         (with_mEarlyTransactionFrames frames
            (with_mEarlyGpuFrames gpuFrames
               (with_mEarlyWakeupRequests
                  ({[token]} ∪ mEarlyWakeupRequests s) s)))
       = VsyncConfigType.Early).
Proof.
  assert (Hpending : ∀ (token : Token) (frames gpuFrames : Z),
             getNextVsyncConfigType
               (with_mEarlyTransactionFrames frames
                  (with_mEarlyGpuFrames gpuFrames
                     (with_mEarlyWakeupRequests
                        ({[token]} ∪ mEarlyWakeupRequests s) s)))
             = VsyncConfigType.Early).
  { intros. apply getNextVsyncConfigType_urgent. left. simpl_state.
    set_solver. }
  destruct (decide (urgent s)) as [Hu|Hu].
  - rewrite (getNextVsyncConfigType_urgent s Hu).
    split_and!; try done; split; try done; tauto.
  - rewrite (getNextVsyncConfigType_calm s Hu).
    case_bool_decide; split_and!; try done; split; try done; tauto.
Qed.

(** ** Requests and commits *)

Lemma setTransactionSchedule_schedule now schedule token s :
  mTransactionSchedule (exec (setTransactionSchedule now schedule token) s) =
    if bool_decide (schedule = mTransactionSchedule s)
       || bool_decide (mTransactionSchedule s = Schedule.EarlyEnd)
    then mTransactionSchedule s else schedule.
Proof. destruct schedule, token; run_on s; done. Qed.

Lemma EarlyEnd_is_Early s :
  mTransactionSchedule s = Schedule.EarlyEnd →
  getNextVsyncConfigType s = VsyncConfigType.Early.
Proof. intros H. apply getNextVsyncConfigType_urgent. right. by left. Qed.

Lemma requests_keep_EarlyEnd requests s :
  mTransactionSchedule s = Schedule.EarlyEnd →
  mTransactionSchedule (run_calls (map request_call requests) s)
    = Schedule.EarlyEnd.
Proof.
  revert s. induction requests as [|[[now schedule] token] rest IH];
    intros s Hs; [done|].
  cbn. apply IH. unfold request_call, call, discard, exec at 1. cbn [fst snd].
  fold (exec (setTransactionSchedule now schedule token) s).
  rewrite setTransactionSchedule_schedule, Hs.
  by rewrite orb_true_r.
Qed.

(** C2. Stickiness of [setTransactionSchedule]: when the requested schedule is
    the stored one, or the stored one is [EarlyEnd], the stored schedule stays
    and the call returns nothing (and the active configuration is not
    recomputed); otherwise the stored schedule becomes the requested one and
    the call returns the reclassified configuration, which is also the new
    active one.  Hence from a stored [EarlyEnd] no sequence of
    [setTransactionSchedule] calls, whatever they request, changes the stored
    schedule, and the classification stays [Early]. *)
Theorem setTransactionSchedule_sticky
    (now : TimePoint) (schedule : Schedule.t) (token : option Token)
    (s : VsyncModulator) :
  let m := setTransactionSchedule now schedule token in
  (schedule = mTransactionSchedule s
   ∨ mTransactionSchedule s = Schedule.EarlyEnd →
     mTransactionSchedule (exec m s) = mTransactionSchedule s
     ∧ result m s = None
     ∧ mVsyncConfig (exec m s) = mVsyncConfig s)
  ∧ (¬ (schedule = mTransactionSchedule s
        ∨ mTransactionSchedule s = Schedule.EarlyEnd) →
     mTransactionSchedule (exec m s) = schedule
     ∧ result m s = Some (getNextVsyncConfig (exec m s))
     ∧ mVsyncConfig (exec m s) = getNextVsyncConfig (exec m s))
  ∧ (mTransactionSchedule s = Schedule.EarlyEnd →
     ∀ requests : list (TimePoint * Schedule.t * option Token),
       let s' := run_calls (map request_call requests) s in
       mTransactionSchedule s' = Schedule.EarlyEnd
       ∧ getNextVsyncConfigType s' = VsyncConfigType.Early).
Proof.
  intros m. subst m. split_and!.
  - intros Hsame. destruct schedule, token; run_on s; try done.
    all: exfalso; destruct Hsame; done.
  - intros Hnew. destruct schedule, token; run_on s; try done.
    all: exfalso; apply Hnew; auto.
  - intros Hs requests s'. subst s'.
    pose proof (requests_keep_EarlyEnd requests s Hs) as Hkept.
    split; [done|]. by apply EarlyEnd_is_Early.
Qed.

Lemma call_keeps_Late c s :
  rearms c = false →
  mTransactionSchedule s = Schedule.Late →
  mTransactionSchedule (exec (call c) s) = Schedule.Late.
Proof.
  intros Hc Hs.
  destruct c as [config|now schedule token|now| | |gpu| |who|];
    [|destruct schedule, token; try discriminate Hc| | | |destruct gpu| | |];
    run_on s; done.
Qed.

Lemma run_keeps_Late calls s :
  Forall (λ c, rearms c = false) calls →
  mTransactionSchedule s = Schedule.Late →
  mTransactionSchedule (run_calls calls s) = Schedule.Late.
Proof.
  intros Hcalls. revert s.
  induction Hcalls as [|c rest Hc _ IH]; intros s Hs; [done|].
  cbn. apply IH. by apply call_keeps_Late.
Qed.

Lemma onTransactionCommit_on_Late now s :
  mTransactionSchedule s = Schedule.Late →
  result (onTransactionCommit now) s = None
  ∧ exec (onTransactionCommit now) s = with_mLastTransactionCommitTime now s.
Proof. intros Hs. run_on s; done. Qed.

(** C7 (as the code has it). [onTransactionCommit] stamps
    [mLastTransactionCommitTime]; on a stored [Late] it does nothing else and
    returns nothing; on any other stored schedule it stores [Late] and
    returns the reclassified configuration, now the active one.  No other
    call takes the stored schedule away from [EarlyEnd], and a commit does.
    A second commit returns nothing and changes neither schedule nor
    classification (only the time stamp) when no [EarlyStart] or [EarlyEnd]
    request came in between; whatever other calls did. *)
Theorem onTransactionCommit_spec (now : TimePoint) (s : VsyncModulator) :
  let s1 := exec (onTransactionCommit now) s in
  mLastTransactionCommitTime s1 = now
  ∧ (mTransactionSchedule s = Schedule.Late →
       result (onTransactionCommit now) s = None
       ∧ s1 = with_mLastTransactionCommitTime now s)
  ∧ (mTransactionSchedule s ≠ Schedule.Late →
       mTransactionSchedule s1 = Schedule.Late
       ∧ result (onTransactionCommit now) s = Some (getNextVsyncConfig s1)
       ∧ mVsyncConfig s1 = getNextVsyncConfig s1)
  ∧ (∀ c : Call, is_onTransactionCommit c = false →
       mTransactionSchedule s = Schedule.EarlyEnd →
       mTransactionSchedule (exec (call c) s) = Schedule.EarlyEnd)
  ∧ (mTransactionSchedule s = Schedule.EarlyEnd →
       mTransactionSchedule s1 = Schedule.Late)
  ∧ (∀ (between : list Call) (now2 : TimePoint),
       Forall (λ c, rearms c = false) between →
       let s2 := run_calls between s1 in
       let s3 := exec (onTransactionCommit now2) s2 in
       result (onTransactionCommit now2) s2 = None
       ∧ s3 = with_mLastTransactionCommitTime now2 s2
       ∧ mTransactionSchedule s3 = mTransactionSchedule s2
       ∧ getNextVsyncConfigType s3 = getNextVsyncConfigType s2
       ∧ mVsyncConfig s3 = mVsyncConfig s2).
Proof.
  intros s1. subst s1. split_and!.
  - run_on s; done.
  - intros Hlate. run_on s; done.
  - intros Hother. run_on s; done.
  - intros c Hc Hs.
    destruct c as [config|now' schedule token|now'| | |gpu| |who|];
      try discriminate Hc.
    + run_on s; done.
    + change (exec (call (CallSetTransactionSchedule now' schedule token)) s)
        with (exec (setTransactionSchedule now' schedule token) s).
      rewrite setTransactionSchedule_schedule, Hs. by rewrite orb_true_r.
    + run_on s; done.
    + run_on s; done.
    + destruct gpu; run_on s; done.
    + run_on s; done.
    + run_on s; done.
    + run_on s; done.
  - intros Hs. run_on s; done.
  - intros between now2 Hbetween s2 s3. subst s3.
    assert (Hs1 : mTransactionSchedule (exec (onTransactionCommit now) s)
                  = Schedule.Late) by (run_on s; done).
    assert (Hs2 : mTransactionSchedule s2 = Schedule.Late)
      by (by apply run_keeps_Late).
    destruct (onTransactionCommit_on_Late now2 s2 Hs2) as [Hres Hexec].
    rewrite Hres, Hexec. by split_and!.
Qed.

(** ** The decay counters *)

Lemma call_keeps_counters_nonneg c s :
  0 ≤ MIN_EARLY_TRANSACTION_FRAMES → 0 ≤ MIN_EARLY_GPU_FRAMES →
  0 ≤ mEarlyTransactionFrames s ∧ 0 ≤ mEarlyGpuFrames s →
  0 ≤ mEarlyTransactionFrames (exec (call c) s)
  ∧ 0 ≤ mEarlyGpuFrames (exec (call c) s).
Proof.
  intros HT HG Hs.
  destruct c as [config|now schedule token|now| | |gpu| |who|];
    [|destruct schedule, token| | | |destruct gpu| | |]; run_on s; lia.
Qed.

Lemma run_keeps_counters_nonneg calls s :
  0 ≤ MIN_EARLY_TRANSACTION_FRAMES → 0 ≤ MIN_EARLY_GPU_FRAMES →
  0 ≤ mEarlyTransactionFrames s ∧ 0 ≤ mEarlyGpuFrames s →
  0 ≤ mEarlyTransactionFrames (run_calls calls s)
  ∧ 0 ≤ mEarlyGpuFrames (run_calls calls s).
Proof.
  intros HT HG. revert s.
  induction calls as [|c rest IH]; intros s Hs; [done|].
  cbn. apply IH. by apply call_keeps_counters_nonneg.
Qed.

(** C6. Provided the two frame constants are not negative, neither counter is
    negative in any state reached from a new modulator by any calls.  In
    every state, a call either resets a counter to its constant (an
    [EarlyEnd] request that leaves no request pending, for the transaction
    counter; a refresh with GPU composition, for the GPU counter) or leaves
    it where it was or one lower; and only [onDisplayRefresh] lowers it. *)
Theorem decay_counters_bounded :
  0 ≤ MIN_EARLY_TRANSACTION_FRAMES → 0 ≤ MIN_EARLY_GPU_FRAMES →
  (∀ (config : VsyncConfigSet) (calls : list Call),
     let s := run_calls calls (VsyncModulator_new config) in
     0 ≤ mEarlyTransactionFrames s ∧ 0 ≤ mEarlyGpuFrames s)
  ∧ (∀ (s : VsyncModulator) (c : Call),
       let s' := exec (call c) s in
       (if resets_transaction_frames c s
        then mEarlyTransactionFrames s' = MIN_EARLY_TRANSACTION_FRAMES
        else mEarlyTransactionFrames s - 1 ≤ mEarlyTransactionFrames s'
             ∧ mEarlyTransactionFrames s' ≤ mEarlyTransactionFrames s
             ∧ (is_onDisplayRefresh c = false →
                mEarlyTransactionFrames s' = mEarlyTransactionFrames s))
       ∧ (if resets_gpu_frames c
          then mEarlyGpuFrames s' = MIN_EARLY_GPU_FRAMES
          else mEarlyGpuFrames s - 1 ≤ mEarlyGpuFrames s'
               ∧ mEarlyGpuFrames s' ≤ mEarlyGpuFrames s
               ∧ (is_onDisplayRefresh c = false →
                  mEarlyGpuFrames s' = mEarlyGpuFrames s))).
Proof.
  intros HT HG. split.
  - intros config calls s. subst s.
    apply run_keeps_counters_nonneg; [done..|]. by cbn.
  - intros s c s'. subst s'. unfold resets_transaction_frames, resets_gpu_frames.
    destruct c as [config|now schedule token|now| | |gpu| |who|];
      [|destruct schedule, token| | | |destruct gpu| | |];
      cbn [is_onDisplayRefresh]; run_on s;
      repeat split; intros; try done; try lia.
Qed.

(** ** Death of a binder *)

Lemma with_own_requests s : with_mEarlyWakeupRequests (mEarlyWakeupRequests s) s = s.
Proof. by destruct s. Qed.

Lemma with_own_config s : with_mVsyncConfig (mVsyncConfig s) s = s.
Proof. by destruct s. Qed.

Lemma getNextVsyncConfigType_with_config v s :
  getNextVsyncConfigType (with_mVsyncConfig v s) = getNextVsyncConfigType s.
Proof. done. Qed.

Lemma binderDied_exec who s :
  exec (binderDied who) s =
    let s0 := with_mEarlyWakeupRequests (mEarlyWakeupRequests s ∖ {[who]}) s in
    with_mVsyncConfig (getNextVsyncConfig s0) s0.
Proof. run_on s; done. Qed.

Lemma binderDied_events who s :
  events (binderDied who) s =
    [Lock; Store FEarlyWakeupRequests; Store FVsyncConfig; Unlock].
Proof. run_on s; done. Qed.

Lemma EarlyStart_exec now t s :
  exec (setTransactionSchedule now Schedule.EarlyStart (Some t)) s =
    let s0 := with_mEarlyWakeupRequests ({[t]} ∪ mEarlyWakeupRequests s) s in
    if bool_decide (mTransactionSchedule s = Schedule.Late) then
      let s1 := with_mTransactionSchedule Schedule.EarlyStart s0 in
      with_mVsyncConfig (getNextVsyncConfig s1) s1
    else s0.
Proof. run_on s; try done; by destruct stored. Qed.

Lemma EarlyStart_None_exec now s :
  exec (setTransactionSchedule now Schedule.EarlyStart None) s =
    if bool_decide (mTransactionSchedule s = Schedule.Late) then
      let s1 := with_mTransactionSchedule Schedule.EarlyStart s in
      with_mVsyncConfig (getNextVsyncConfig s1) s1
    else s.
Proof. run_on s; try done; by destruct stored. Qed.

Lemma EarlyEnd_exec now token s :
  exec (setTransactionSchedule now Schedule.EarlyEnd token) s =
    let s0 :=
      match token with
      | Some t =>
          with_mEarlyWakeupRequests (mEarlyWakeupRequests s ∖ {[t]}) s
      | None => s
      end in
    let s1 :=
      if bool_decide (mEarlyWakeupRequests s0 = ∅) then
        with_mEarlyTransactionStartTime now
          (with_mEarlyTransactionFrames MIN_EARLY_TRANSACTION_FRAMES s0)
      else s0 in
    if bool_decide (mTransactionSchedule s = Schedule.EarlyEnd) then s1
    else
      let s2 := with_mTransactionSchedule Schedule.EarlyEnd s1 in
      with_mVsyncConfig (getNextVsyncConfig s2) s2.
Proof. destruct token; run_on s; done. Qed.

(** Decide a classification on a state whose fields are spelled out. *)
Ltac classify :=
  unfold getNextVsyncConfig, getNextVsyncConfigType in *; crunch.

(** C5 (as the code has it). [binderDied] removes the token from the pending
    set, which is the set [setTransactionSchedule(EarlyEnd, token)] leaves,
    and recomputes the active configuration; it writes no other member: the
    stored schedule, the counters and the time marks stay, so no grace window
    starts.  For a token that is not pending the classification is unchanged
    and only the active configuration is refreshed; the call changes nothing
    at all when the active configuration is already the classified one. *)
Theorem binderDied_spec (now : TimePoint) (who : Token) (s : VsyncModulator) :
  let s' := exec (binderDied who) s in
  let s0 := with_mEarlyWakeupRequests (mEarlyWakeupRequests s ∖ {[who]}) s in
  mEarlyWakeupRequests s' = mEarlyWakeupRequests s ∖ {[who]}
  ∧ mEarlyWakeupRequests s' =
      mEarlyWakeupRequests
        (exec (setTransactionSchedule now Schedule.EarlyEnd (Some who)) s)
  ∧ s' = with_mVsyncConfig (getNextVsyncConfig s0) s0
  ∧ mVsyncConfig s' = getNextVsyncConfig s'
  ∧ (who ∉ mEarlyWakeupRequests s →
       getNextVsyncConfigType s' = getNextVsyncConfigType s
       ∧ s' = with_mVsyncConfig (getNextVsyncConfig s) s
       ∧ (mVsyncConfig s = getNextVsyncConfig s → s' = s)).
Proof.
  intros s' s0. subst s' s0. rewrite binderDied_exec. cbv zeta.
  split_and!; try done.
  - run_on s; done.
  - intros Hout.
    assert (Hsame : mEarlyWakeupRequests s ∖ {[who]} = mEarlyWakeupRequests s)
      by set_solver.
    rewrite Hsame, with_own_requests. split_and!; try done.
    intros Hactive. rewrite <- Hactive. apply with_own_config.
Qed.

(** C8. Scenario C: from a state with no pending request, an [EarlyStart]
    with a token followed by the death of that token leaves the pending set
    empty; [binderDied] writes neither [mEarlyTransactionFrames] nor
    [mEarlyTransactionStartTime], so no grace window starts; the
    classification is the cascade over what is left (stored [EarlyEnd],
    transaction counter, refresh-rate change, GPU counter), and it is the
    active configuration.  From a new modulator the outcome is [Late]. *)
Theorem scenario_C (now : TimePoint) (tokenA : Token) (s : VsyncModulator) :
  mEarlyWakeupRequests s = ∅ →
  let s1 :=
    exec (setTransactionSchedule now Schedule.EarlyStart (Some tokenA)) s in
  let s2 := exec (binderDied tokenA) s1 in
  mEarlyWakeupRequests s1 = {[tokenA]}
  ∧ getNextVsyncConfigType s1 = VsyncConfigType.Early
  ∧ mEarlyWakeupRequests s2 = ∅
  ∧ mEarlyTransactionFrames s2 = mEarlyTransactionFrames s1
  ∧ mEarlyTransactionStartTime s2 = mEarlyTransactionStartTime s1
  ∧ mEarlyTransactionFrames s2 = mEarlyTransactionFrames s
  ∧ mEarlyTransactionStartTime s2 = mEarlyTransactionStartTime s
  ∧ (Store FEarlyTransactionFrames ∉ events (binderDied tokenA) s1)
  ∧ (Store FEarlyTransactionStartTime ∉ events (binderDied tokenA) s1)
  ∧ getNextVsyncConfigType s2 =
      (if bool_decide (mTransactionSchedule s = Schedule.EarlyEnd)
          || bool_decide (0 < mEarlyTransactionFrames s)
          || mRefreshRateChangePending s
       then VsyncConfigType.Early
       else if bool_decide (0 < mEarlyGpuFrames s)
       then VsyncConfigType.EarlyGpu
       else VsyncConfigType.Late)
  ∧ mVsyncConfig s2 = getNextVsyncConfig s2
  ∧ (∀ config : VsyncConfigSet,
       s = VsyncModulator_new config →
       getNextVsyncConfigType s2 = VsyncConfigType.Late).
Proof.
  intros Hempty s1 s2. subst s1 s2.
  rewrite binderDied_events, binderDied_exec, EarlyStart_exec.
  destruct s as [configs active requests stored frames gpuFrames pending
                   started committed].
  cbn in Hempty. subst requests. simpl_state.
  rewrite union_empty_r_L.
  assert (Hnon : ({[tokenA]} : gset Token) ≠ ∅) by set_solver.
  split_and!.
  all: try (intros config [= -> -> -> -> -> -> ->]).
  all: cbv zeta; crunch; rewrite ?difference_diag_L; try done.
  all: try set_solver.
  all: classify.
  all: try done; try lia; try (exfalso; set_solver).
Qed.

Lemma new_EarlyStart_None now0 config :
  exec (setTransactionSchedule now0 Schedule.EarlyStart None)
    (VsyncModulator_new config)
  = mkVsyncModulator config (late config) ∅ Schedule.EarlyStart 0 0 false 0 0.
Proof.
  rewrite EarlyStart_None_exec. unfold VsyncModulator_new. classify; done.
Qed.

Lemma getVsyncConfig_result s : result getVsyncConfig s = mVsyncConfig s.
Proof. by run_on s. Qed.

(** C9. A second [EarlyStart], this time with a token, on a stored
    [EarlyStart]: the token joins the pending set and is linked to death, but
    the call returns nothing and does not write the active configuration,
    although the state now classifies as [Early].  After a token-less
    [EarlyStart] on a new modulator this leaves [getVsyncConfig] at the late
    configuration while the classification selects the early one, and the
    two differ as soon as the configuration set tells them apart. *)
Theorem EarlyStart_again_is_silent
    (config : VsyncConfigSet) (now0 now : TimePoint) (t : Token) :
  early config ≠ late config →
  let m := setTransactionSchedule now Schedule.EarlyStart (Some t) in
  (∀ s : VsyncModulator,
     mTransactionSchedule s = Schedule.EarlyStart →
     mEarlyWakeupRequests (exec m s) = {[t]} ∪ mEarlyWakeupRequests s
     ∧ LinkToDeath t ∈ events m s
     ∧ result m s = None
     ∧ (Store FVsyncConfig ∉ events m s)
     ∧ mVsyncConfig (exec m s) = mVsyncConfig s
     ∧ getNextVsyncConfig (exec m s) = early (mVsyncConfigSet s))
  ∧ (let s1 :=
       exec (setTransactionSchedule now0 Schedule.EarlyStart None)
         (VsyncModulator_new config) in
     let s2 := exec m s1 in
     mTransactionSchedule s1 = Schedule.EarlyStart
     ∧ result m s1 = None
     ∧ result getVsyncConfig s2 = late config
     ∧ getNextVsyncConfig s2 = early config
     ∧ result getVsyncConfig s2 ≠ getNextVsyncConfig s2).
Proof.
  intros Hdiff m. subst m.
  assert (Hnon : ∀ X : gset Token, {[t]} ∪ X ≠ ∅) by set_solver.
  assert (Hgeneral : ∀ s : VsyncModulator,
     mTransactionSchedule s = Schedule.EarlyStart →
     let m := setTransactionSchedule now Schedule.EarlyStart (Some t) in
     mEarlyWakeupRequests (exec m s) = {[t]} ∪ mEarlyWakeupRequests s
     ∧ LinkToDeath t ∈ events m s
     ∧ result m s = None
     ∧ (Store FVsyncConfig ∉ events m s)
     ∧ mVsyncConfig (exec m s) = mVsyncConfig s
     ∧ getNextVsyncConfig (exec m s) = early (mVsyncConfigSet s)); [|split].
  - intros s Hs m. subst m. rewrite EarlyStart_exec, Hs. cbv zeta.
    run_on s; split_and!; try done; try set_solver.
    all: classify; try done; exfalso; by eapply Hnon.
  - exact Hgeneral.
  - intros s1 s2. subst s1 s2. rewrite new_EarlyStart_None.
    set (s1 := mkVsyncModulator config (late config) ∅ Schedule.EarlyStart
                 0 0 false 0 0).
    destruct (Hgeneral s1 eq_refl) as (_ & _ & Hres & _ & Hactive & Hnext).
    rewrite getVsyncConfig_result, Hactive, Hnext, Hres. cbn.
    by split_and!.
Qed.

(** ** The lock discipline *)


(** ** Scenario A and the grace window *)

Lemma grace_only_classification s :
  grace_only s →
  getNextVsyncConfigType s =
    if bool_decide (0 < mEarlyTransactionFrames s) then VsyncConfigType.Early
    else VsyncConfigType.Late.
Proof.
  intros (Hreq & Hsched & Hpend & Hgpu & _).
  destruct s; cbn in *; subst. classify; done.
Qed.

Lemma refresh_grace_only s :
  grace_only s →
  grace_only (exec (onDisplayRefresh false) s)
  ∧ mEarlyTransactionFrames (exec (onDisplayRefresh false) s) =
      if bool_decide (0 < mEarlyTransactionFrames s)
      then mEarlyTransactionFrames s - 1 else mEarlyTransactionFrames s.
Proof.
  unfold grace_only. intros (Hreq & Hsched & Hpend & Hgpu & Htime).
  run_on s; split_and!; try done; lia.
Qed.

Lemma refreshes_grace_only n s :
  grace_only s →
  grace_only (refreshes n s)
  ∧ mEarlyTransactionFrames (refreshes n s) =
      if bool_decide (0 ≤ mEarlyTransactionFrames s)
      then Z.max 0 (mEarlyTransactionFrames s - Z.of_nat n)
      else mEarlyTransactionFrames s.
Proof.
  intros Hs. induction n as [|n [IHg IHf]].
  - split; [done|]. cbn. case_bool_decide; lia.
  - change (refreshes (S n) s)
      with (exec (onDisplayRefresh false) (refreshes n s)).
    destruct (refresh_grace_only _ IHg) as [Hg Hf].
    split; [done|]. rewrite Hf, IHf.
    repeat case_bool_decide; lia.
Qed.

(** C3 (as the code has it). Scenario A on a new modulator: [EarlyStart] with
    a token classifies as [Early]; [EarlyEnd] with the same token empties the
    pending set, sets the transaction counter to
    [MIN_EARLY_TRANSACTION_FRAMES], stamps the start time, stores [EarlyEnd],
    and the classification is still [Early]; [onTransactionCommit] stores
    [Late] but leaves the counter, so the classification after the commit is
    [Early] when the constant is positive and [Late] only when it is not.
    When the commit comes at least [MIN_EARLY_TRANSACTION_TIME] after the
    [EarlyEnd], each refresh without GPU composition counts one frame down:
    the classification is [Early] until [MIN_EARLY_TRANSACTION_FRAMES]
    refreshes have passed, and [Late] from then on. *)
Theorem scenario_A
    (config : VsyncConfigSet) (tokenA : Token) (t1 t2 t3 : TimePoint) :
  let s1 :=
    exec (setTransactionSchedule t1 Schedule.EarlyStart (Some tokenA))
      (VsyncModulator_new config) in
  let s2 :=
    exec (setTransactionSchedule t2 Schedule.EarlyEnd (Some tokenA)) s1 in
  let s3 := exec (onTransactionCommit t3) s2 in
  getNextVsyncConfigType s1 = VsyncConfigType.Early
  ∧ (mEarlyWakeupRequests s2 = ∅
     ∧ mEarlyTransactionFrames s2 = MIN_EARLY_TRANSACTION_FRAMES
     ∧ mEarlyTransactionStartTime s2 = t2
     ∧ mTransactionSchedule s2 = Schedule.EarlyEnd
     ∧ getNextVsyncConfigType s2 = VsyncConfigType.Early)
  ∧ (mTransactionSchedule s3 = Schedule.Late
     ∧ mEarlyWakeupRequests s3 = ∅
     ∧ mRefreshRateChangePending s3 = false
     ∧ mEarlyGpuFrames s3 = 0
     ∧ mEarlyTransactionFrames s3 = MIN_EARLY_TRANSACTION_FRAMES
     ∧ getNextVsyncConfigType s3 =
         (if bool_decide (0 < MIN_EARLY_TRANSACTION_FRAMES)
          then VsyncConfigType.Early else VsyncConfigType.Late))
  ∧ (t2 + MIN_EARLY_TRANSACTION_TIME ≤ t3 →
     ∀ n : nat,
       getNextVsyncConfigType (refreshes n s3) =
         if bool_decide (Z.of_nat n < MIN_EARLY_TRANSACTION_FRAMES)
         then VsyncConfigType.Early else VsyncConfigType.Late).
Proof.
  intros s1 s2 s3.
  assert (Hnon : ({[tokenA]} ∪ ∅ : gset Token) ≠ ∅) by set_solver.
  assert (Hgone : ({[tokenA]} ∪ ∅ : gset Token) ∖ {[tokenA]} = ∅)
    by set_solver.
  assert (Hs1 : s1 = mkVsyncModulator config (early config)
                       ({[tokenA]} ∪ ∅) Schedule.EarlyStart 0 0 false 0 0).
  { subst s1. rewrite EarlyStart_exec. unfold VsyncModulator_new.
    classify; done. }
  assert (Hs2 : s2 = mkVsyncModulator config (early config) ∅
                       Schedule.EarlyEnd MIN_EARLY_TRANSACTION_FRAMES 0 false
                       t2 0).
  { subst s2. rewrite Hs1, EarlyEnd_exec. simpl_state. rewrite Hgone.
    classify; done. }
  assert (Hs3 : mTransactionSchedule s3 = Schedule.Late
                ∧ mEarlyWakeupRequests s3 = ∅
                ∧ mRefreshRateChangePending s3 = false
                ∧ mEarlyGpuFrames s3 = 0
                ∧ mEarlyTransactionFrames s3 = MIN_EARLY_TRANSACTION_FRAMES
                ∧ mEarlyTransactionStartTime s3 = t2
                ∧ mLastTransactionCommitTime s3 = t3).
  { subst s3. rewrite Hs2. unfold_methods. by crunch. }
  destruct Hs3 as (H3s & H3r & H3p & H3g & H3f & H3t & H3c).
  split_and!; try done.
  - rewrite Hs1. by classify.
  - by rewrite Hs2.
  - by rewrite Hs2.
  - by rewrite Hs2.
  - by rewrite Hs2.
  - rewrite Hs2. by classify.
  - clearbody s3. clear - H3s H3r H3p H3g H3f.
    destruct s3; cbn in *; subst. classify; done.
  - intros Hlate n.
    assert (Hg : grace_only s3) by (unfold grace_only; split_and!; [done..|lia]).
    destruct (refreshes_grace_only n s3 Hg) as [Hgn Hfn].
    rewrite (grace_only_classification _ Hgn), Hfn, H3f.
    repeat case_bool_decide; try done; lia.
Qed.

(** ** Requests without their token *)

(** C4 (as the code has it). A token-less [EarlyStart] and an [EarlyEnd]
    whose token is missing or not pending only skip the update of the pending
    set: a warning is logged, no binder is linked or unlinked, and the pending
    set stays as it is.  The rest of the call runs as for any request.  The
    token-less [EarlyStart] never changes the classification; it changes
    nothing and returns nothing unless the stored schedule is [Late], in which
    case it stores [EarlyStart], recomputes the active configuration and
    returns it.  The [EarlyEnd] starts the grace window exactly when the
    pending set is empty, always ends with [EarlyEnd] stored and the state
    classified [Early]; it returns nothing when [EarlyEnd] was already stored
    (and then changes nothing at all if a request is pending), and otherwise
    returns the early configuration, now active. *)
Theorem misuse_requests
    (now : TimePoint) (token : option Token) (s : VsyncModulator) :
  (let m := setTransactionSchedule now Schedule.EarlyStart None in
   mEarlyWakeupRequests (exec m s) = mEarlyWakeupRequests s
   ∧ Warn "setTransactionSchedule: EarlyStart requested without a valid token"
       ∈ events m s
   ∧ (∀ t : Token, LinkToDeath t ∉ events m s)
   ∧ getNextVsyncConfigType (exec m s) = getNextVsyncConfigType s
   ∧ (mTransactionSchedule s ≠ Schedule.Late →
        exec m s = s ∧ result m s = None)
   ∧ (mTransactionSchedule s = Schedule.Late →
        exec m s =
          with_mVsyncConfig (getNextVsyncConfig s)
            (with_mTransactionSchedule Schedule.EarlyStart s)
        ∧ result m s = Some (getNextVsyncConfig s)))
  ∧ (token_missing token s →
     let m := setTransactionSchedule now Schedule.EarlyEnd token in
     let s' := exec m s in
     mEarlyWakeupRequests s' = mEarlyWakeupRequests s
     ∧ Warn "setTransactionSchedule: Unexpected EarlyEnd" ∈ events m s
     ∧ (∀ t : Token, UnlinkToDeath t ∉ events m s)
     ∧ (mEarlyWakeupRequests s = ∅ →
          mEarlyTransactionFrames s' = MIN_EARLY_TRANSACTION_FRAMES
          ∧ mEarlyTransactionStartTime s' = now)
     ∧ (mEarlyWakeupRequests s ≠ ∅ →
          mEarlyTransactionFrames s' = mEarlyTransactionFrames s
          ∧ mEarlyTransactionStartTime s' = mEarlyTransactionStartTime s)
     ∧ mTransactionSchedule s' = Schedule.EarlyEnd
     ∧ getNextVsyncConfigType s' = VsyncConfigType.Early
     ∧ (mTransactionSchedule s = Schedule.EarlyEnd →
          result m s = None
          ∧ mVsyncConfig s' = mVsyncConfig s
          ∧ (mEarlyWakeupRequests s ≠ ∅ → s' = s))
     ∧ (mTransactionSchedule s ≠ Schedule.EarlyEnd →
          result m s = Some (early (mVsyncConfigSet s))
          ∧ mVsyncConfig s' = early (mVsyncConfigSet s))).
Proof.
  split.
  - intros m. subst m. rewrite EarlyStart_None_exec.
    run_on s; split_and!; intros; try done; try log_goal.
    all: try (classify; done).
    all: by destruct stored.
  - intros Hmiss m s'. subst m s'.
    destruct s as [configs active requests stored frames gpuFrames pending
                     started committed].
    destruct token as [t|]; cbn in Hmiss.
    + assert (Hsame : requests ∖ {[t]} = requests) by set_solver.
      unfold_methods. crunch; rewrite ?Hsame in *.
      all: split_and!; intros; try done; try log_goal.
      all: try (classify; done).
    + unfold_methods. crunch.
      all: split_and!; intros; try done; try log_goal.
      all: try (classify; done).
Qed.

(** ** Replacing the configuration set *)

(** X1. [setVsyncConfigSet] never changes the classification: it installs the
    new set, makes its member for the current classification the active
    configuration and returns it, so that [getVsyncConfig] reports the
    returned value and the state is coherent; no other member moves.  The
    last of two replacements wins. *)
Theorem setVsyncConfigSet_spec (config config' : VsyncConfigSet)
    (s : VsyncModulator) :
  let m := setVsyncConfigSet config in
  mVsyncConfigSet (exec m s) = config
  ∧ getNextVsyncConfigType (exec m s) = getNextVsyncConfigType s
  ∧ result m s =
      match getNextVsyncConfigType s with
      | VsyncConfigType.Early => early config
      | VsyncConfigType.EarlyGpu => earlyGpu config
      | VsyncConfigType.Late => late config
      end
  ∧ result getVsyncConfig (exec m s) = result m s
  ∧ coherent (exec m s)
  ∧ (∀ f : Field, f ∉ [FVsyncConfigSet; FVsyncConfig] →
       same_field f s (exec m s))
  ∧ exec (setVsyncConfigSet config') (exec m s)
    = exec (setVsyncConfigSet config') s.
Proof.
  intros m. subst m. unfold coherent.
  split_and!; try (run_on s; done).
  intros f Hf. destruct f; try (run_on s; done).
  all: exfalso; apply Hf; solve [in_log].
Qed.

(** X2. The active configuration is always one of the three members of the
    current configuration set, in every state reached from a new
    modulator. *)
Theorem active_config_is_member (config : VsyncConfigSet) (calls : list Call) :
  let s := run_calls calls (VsyncModulator_new config) in
  member_of (mVsyncConfigSet s) (mVsyncConfig s).
Proof.
  assert (Hnext : ∀ s : VsyncModulator,
            member_of (mVsyncConfigSet s) (getNextVsyncConfig s)).
  { intros s. unfold member_of, getNextVsyncConfig.
    destruct (getNextVsyncConfigType s); auto. }
  assert (Hstep : ∀ (c : Call) (s : VsyncModulator),
            member_of (mVsyncConfigSet s) (mVsyncConfig s) →
            member_of (mVsyncConfigSet (exec (call c) s))
              (mVsyncConfig (exec (call c) s))).
  { intros c s Hs.
    destruct c as [cfg|now schedule token|now| | |gpu| |who|];
      [|destruct schedule, token| | | |destruct gpu| | |];
      run_on s; try done.
    all: match goal with
         | |- member_of ?set (getNextVsyncConfig ?st) =>
             apply (Hnext st)
         end. }
  intros s. subst s.
  assert (Hnew : member_of (mVsyncConfigSet (VsyncModulator_new config))
                   (mVsyncConfig (VsyncModulator_new config)))
    by (right; right; reflexivity).
  revert Hnew. generalize (VsyncModulator_new config).
  induction calls as [|c rest IH]; intros s Hs; [done|].
  cbn. apply IH. by apply Hstep.
Qed.

(** ** The active configuration against the classification *)

(** X3. A call keeps the active configuration equal to the classified one,
    with a single exception: an [EarlyStart] with a token while [EarlyStart]
    is already stored.  And whatever the state, [setVsyncConfigSet] and
    [binderDied] end in a coherent state, as does [onTransactionCommit]
    unless [Late] was stored. *)
Theorem calls_keep_coherence (c : Call) (s : VsyncModulator) :
  (coherent s → repeats_EarlyStart c s = false → coherent (exec (call c) s))
  ∧ (∀ config : VsyncConfigSet, coherent (exec (setVsyncConfigSet config) s))
  ∧ (∀ who : Token, coherent (exec (binderDied who) s))
  ∧ (∀ now : TimePoint,
       mTransactionSchedule s ≠ Schedule.Late →
       coherent (exec (onTransactionCommit now) s)).
Proof.
  unfold coherent. split_and!.
  - intros Hs Hc.
    destruct c as [cfg|now schedule token|now| | |gpu| |who|];
      [|destruct schedule, token| | | |destruct gpu| | |];
      cbn in Hc; run_on s; try done.
    all: classify; try done.
    all: try (exfalso; set_solver).
  - intros config. run_on s; done.
  - intros who. run_on s; done.
  - intros now Hs. run_on s; done.
Qed.

(** X4. What the optional result of a method tells its caller: for
    [setTransactionSchedule], [onTransactionCommit], the two refresh-rate
    methods and [onDisplayRefresh], a returned configuration is the active
    configuration and the one the classification of the new state selects,
    and when nothing is returned the active configuration has not moved. *)
Theorem optional_result_is_active (s : VsyncModulator) :
  (∀ now schedule token,
     reports_active (setTransactionSchedule now schedule token) s)
  ∧ (∀ now, reports_active (onTransactionCommit now) s)
  ∧ reports_active onRefreshRateChangeInitiated s
  ∧ reports_active onRefreshRateChangeCompleted s
  ∧ (∀ gpu, reports_active (onDisplayRefresh gpu) s).
Proof.
  unfold reports_active. split_and!.
  - intros now schedule token. destruct schedule, token; run_on s; done.
  - intros now. run_on s; done.
  - run_on s; done.
  - run_on s; done.
  - intros gpu. destruct gpu; run_on s; done.
Qed.

(** ** A refresh-rate change *)

(** X5. Round trip of a refresh-rate change: on a state with no change
    pending, [onRefreshRateChangeInitiated] returns the early configuration
    and the state classifies as [Early]; a following
    [onRefreshRateChangeCompleted] returns the configuration the state had
    been classified to before, and brings back the state it started from when
    that one was coherent. *)
Theorem refresh_rate_change_round_trip (s : VsyncModulator) :
  mRefreshRateChangePending s = false →
  let s1 := exec onRefreshRateChangeInitiated s in
  let s2 := exec onRefreshRateChangeCompleted s1 in
  result onRefreshRateChangeInitiated s = Some (early (mVsyncConfigSet s))
  ∧ getNextVsyncConfigType s1 = VsyncConfigType.Early
  ∧ result onRefreshRateChangeCompleted s1 = Some (getNextVsyncConfig s)
  ∧ s2 = with_mVsyncConfig (getNextVsyncConfig s) s
  ∧ (coherent s → s2 = s).
Proof.
  intros Hs s1 s2. subst s1 s2. unfold coherent.
  run_on s. split_and!; try done.
  - by classify.
  - by classify.
  - intros ->. done.
Qed.

(** X6. Both refresh-rate methods are idempotent: a second
    [onRefreshRateChangeInitiated] (or [onRefreshRateChangeCompleted]) in a
    row returns nothing, changes nothing and does not take the mutex.  While
    a change is pending the classification is [Early] after any calls that
    do not include [onRefreshRateChangeCompleted]. *)
Theorem refresh_rate_change_pending (s : VsyncModulator) :
  (let s1 := exec onRefreshRateChangeInitiated s in
   result onRefreshRateChangeInitiated s1 = None
   ∧ exec onRefreshRateChangeInitiated s1 = s1
   ∧ events onRefreshRateChangeInitiated s1 = [])
  ∧ (let s1 := exec onRefreshRateChangeCompleted s in
     result onRefreshRateChangeCompleted s1 = None
     ∧ exec onRefreshRateChangeCompleted s1 = s1
     ∧ events onRefreshRateChangeCompleted s1 = [])
  ∧ (mRefreshRateChangePending s = true →
     ∀ calls : list Call,
       Forall (λ c, is_onRefreshRateChangeCompleted c = false) calls →
       mRefreshRateChangePending (run_calls calls s) = true
       ∧ getNextVsyncConfigType (run_calls calls s) = VsyncConfigType.Early).
Proof.
  split_and!.
  - intros s1. subst s1. run_on s; done.
  - intros s1. subst s1. run_on s; done.
  - intros Hs calls Hcalls.
    assert (Hkept : mRefreshRateChangePending (run_calls calls s) = true).
    { revert s Hs. induction Hcalls as [|c rest Hc _ IH]; intros s Hs; [done|].
      cbn. apply IH.
      destruct c as [cfg|now schedule token|now| | |gpu| |who|];
        [|destruct schedule, token| | | |destruct gpu| | |];
        try discriminate Hc; run_on s; done. }
    split; [done|].
    apply getNextVsyncConfigType_urgent. do 3 right. done.
Qed.

(** ** Pending requests *)

(** X7. An early-wakeup request is honoured until it is ended: while a token
    is pending, it stays pending and the classification stays [Early] after
    any calls other than an [EarlyEnd] for that token and the death of that
    token. *)
Theorem pending_token_keeps_Early
    (t : Token) (calls : list Call) (s : VsyncModulator) :
  t ∈ mEarlyWakeupRequests s →
  Forall (λ c, releases t c = false) calls →
  t ∈ mEarlyWakeupRequests (run_calls calls s)
  ∧ getNextVsyncConfigType (run_calls calls s) = VsyncConfigType.Early.
Proof.
  intros Hs Hcalls.
  assert (Hkept : t ∈ mEarlyWakeupRequests (run_calls calls s)).
  { revert s Hs. induction Hcalls as [|c rest Hc _ IH]; intros s Hs; [done|].
    cbn. apply IH.
    destruct c as [cfg|now schedule token|now| | |gpu| |who|];
      [|destruct schedule, token| | | |destruct gpu| | |];
      cbn in Hc; run_on s; try done; set_solver. }
  split; [done|].
  apply getNextVsyncConfigType_urgent. left. set_solver.
Qed.

(** ** Display refreshes *)

Lemma refresh_calm gpu s :
  ¬ urgent s →
  ¬ urgent (exec (onDisplayRefresh gpu) s)
  ∧ mEarlyGpuFrames (exec (onDisplayRefresh gpu) s) =
      if gpu then MIN_EARLY_GPU_FRAMES
      else if bool_decide (0 < mEarlyGpuFrames s)
      then mEarlyGpuFrames s - 1 else mEarlyGpuFrames s.
Proof.
  unfold urgent. intros Hs.
  destruct gpu; run_on s; split; try done.
  all: intros [?|[?|[?|?]]]; apply Hs; auto; try lia.
Qed.

Lemma refreshes_calm n s :
  ¬ urgent s →
  ¬ urgent (refreshes n s)
  ∧ mEarlyGpuFrames (refreshes n s) =
      if bool_decide (0 ≤ mEarlyGpuFrames s)
      then Z.max 0 (mEarlyGpuFrames s - Z.of_nat n)
      else mEarlyGpuFrames s.
Proof.
  intros Hs. induction n as [|n [IHu IHg]].
  - split; [done|]. cbn. case_bool_decide; lia.
  - change (refreshes (S n) s)
      with (exec (onDisplayRefresh false) (refreshes n s)).
    destruct (refresh_calm false _ IHu) as [Hu Hg].
    split; [done|]. rewrite Hg, IHg.
    repeat case_bool_decide; lia.
Qed.

(** X8. Decay of the GPU window: on a state with no urgency signal, a refresh
    that used GPU composition sets the GPU counter to [MIN_EARLY_GPU_FRAMES];
    each following refresh without GPU composition counts one frame down, no
    lower than zero, so the classification is [EarlyGpu] for the first
    [MIN_EARLY_GPU_FRAMES] of them and [Late] from then on. *)
Theorem gpu_window_decay (s : VsyncModulator) (n : nat) :
  ¬ urgent s →
  let s1 := exec (onDisplayRefresh true) s in
  mEarlyGpuFrames s1 = MIN_EARLY_GPU_FRAMES
  ∧ mEarlyGpuFrames (refreshes n s1) =
      (if bool_decide (0 ≤ MIN_EARLY_GPU_FRAMES)
       then Z.max 0 (MIN_EARLY_GPU_FRAMES - Z.of_nat n)
       else MIN_EARLY_GPU_FRAMES)
  ∧ getNextVsyncConfigType (refreshes n s1) =
      (if bool_decide (Z.of_nat n < MIN_EARLY_GPU_FRAMES)
       then VsyncConfigType.EarlyGpu else VsyncConfigType.Late).
Proof.
  intros Hs s1.
  destruct (refresh_calm true s Hs) as [Hu1 Hg1]. fold s1 in Hu1, Hg1.
  destruct (refreshes_calm n s1 Hu1) as [Hun Hgn].
  rewrite Hg1 in Hgn. split_and!; try done.
  rewrite (getNextVsyncConfigType_calm _ Hun), Hgn.
  repeat case_bool_decide; try done; lia.
Qed.

Lemma time_test_in_64_bits s :
  stamps_fit s →
  wrap64 (mEarlyTransactionStartTime s + MIN_EARLY_TRANSACTION_TIME)
  = mEarlyTransactionStartTime s + MIN_EARLY_TRANSACTION_TIME.
Proof.
  unfold stamps_fit, wrap64, INT64_MIN, INT64_MAX, MIN_EARLY_TRANSACTION_TIME.
  intros (Hlo & Hhi & _). rewrite Z.mod_small; lia.
Qed.

(** X9. The idle path of [onDisplayRefresh], for time marks that fit 64 bits
    with the sum of the time test: it returns nothing exactly when the
    refresh did not use GPU composition, the GPU counter is not positive,
    and the transaction counter is not positive or the last commit is
    earlier than [MIN_EARLY_TRANSACTION_TIME] after the start of the grace
    window; it then changes nothing and never touches the mutex. *)
Theorem onDisplayRefresh_idle (gpu : bool) (s : VsyncModulator) :
  stamps_fit s →
  (result (onDisplayRefresh gpu) s = None
   ↔ gpu = false
     ∧ mEarlyGpuFrames s ≤ 0
     ∧ (mEarlyTransactionFrames s ≤ 0
        ∨ mLastTransactionCommitTime s
          < mEarlyTransactionStartTime s + MIN_EARLY_TRANSACTION_TIME))
  ∧ (result (onDisplayRefresh gpu) s = None →
     exec (onDisplayRefresh gpu) s = s
     ∧ events (onDisplayRefresh gpu) s = []).
Proof.
  intros _.
  destruct gpu; run_on s; (split; [split|]); try done.
  all: try (intros (? & ? & [?|?]); done || lia).
  all: try (intros _; split_and!; try done; lia).
  all: intros (? & ? & ?); lia.
Qed.



(** ** Tokens and the binder *)

Lemma EarlyStart_requests now t s :
  mEarlyWakeupRequests
    (exec (setTransactionSchedule now Schedule.EarlyStart (Some t)) s)
  = {[t]} ∪ mEarlyWakeupRequests s.
Proof. run_on s; done. Qed.

Lemma EarlyEnd_requests now t s :
  mEarlyWakeupRequests
    (exec (setTransactionSchedule now Schedule.EarlyEnd (Some t)) s)
  = mEarlyWakeupRequests s ∖ {[t]}.
Proof. run_on s; done. Qed.

Lemma EarlyStart_links now t s :
  LinkToDeath t
    ∈ events (setTransactionSchedule now Schedule.EarlyStart (Some t)) s.
Proof. run_on s; log_goal. Qed.

Lemma EarlyEnd_unlinks now t s :
  t ∈ mEarlyWakeupRequests s →
  UnlinkToDeath t
    ∈ events (setTransactionSchedule now Schedule.EarlyEnd (Some t)) s.
Proof. intros Hin. run_on s; try done; log_goal. Qed.

(** X11. Pending requests are a set, not a count: a second [EarlyStart] for
    a pending token leaves the set as it is (and links the binder again),
    and a single [EarlyEnd] for the token then takes it out and unlinks it;
    what is left is the starting set without the token. *)
Theorem requests_are_not_counted
    (n1 n2 n3 : TimePoint) (t : Token) (s : VsyncModulator) :
  let s1 := exec (setTransactionSchedule n1 Schedule.EarlyStart (Some t)) s in
  let s2 := exec (setTransactionSchedule n2 Schedule.EarlyStart (Some t)) s1 in
  let s3 := exec (setTransactionSchedule n3 Schedule.EarlyEnd (Some t)) s2 in
  mEarlyWakeupRequests s2 = mEarlyWakeupRequests s1
  ∧ LinkToDeath t
      ∈ events (setTransactionSchedule n2 Schedule.EarlyStart (Some t)) s1
  ∧ (t ∉ mEarlyWakeupRequests s3)
  ∧ mEarlyWakeupRequests s3 = mEarlyWakeupRequests s ∖ {[t]}
  ∧ UnlinkToDeath t
      ∈ events (setTransactionSchedule n3 Schedule.EarlyEnd (Some t)) s2.
Proof.
  intros s1 s2 s3.
  assert (H1 : mEarlyWakeupRequests s1 = {[t]} ∪ mEarlyWakeupRequests s)
    by apply EarlyStart_requests.
  assert (H2 : mEarlyWakeupRequests s2 = {[t]} ∪ mEarlyWakeupRequests s1)
    by apply EarlyStart_requests.
  assert (H3 : mEarlyWakeupRequests s3 = mEarlyWakeupRequests s2 ∖ {[t]})
    by apply EarlyEnd_requests.
  pose proof (EarlyStart_links n2 t s1) as Hlink.
  pose proof (EarlyEnd_unlinks n3 t s2) as Hunlink.
  fold s3 in Hunlink. fold s2 in Hlink.
  clearbody s1 s2 s3.
  assert (Hin : t ∈ mEarlyWakeupRequests s2) by (rewrite H2; set_solver).
  split_and!; [set_solver|done|set_solver|set_solver|by apply Hunlink].
Qed.

(** X12. When [setTransactionSchedule] calls out: it links a binder exactly
    for an [EarlyStart] that carries it, unlinks a binder exactly for an
    [EarlyEnd] whose token is pending, and logs a warning exactly for an
    [EarlyStart] without a token and an [EarlyEnd] without a pending token.
    No other method links, unlinks or warns; in particular [binderDied] does
    not unlink the dead binder. *)
Theorem binder_calls_of_requests
    (now : TimePoint) (schedule : Schedule.t) (token : option Token)
    (t : Token) (s : VsyncModulator) :
  let log := events (setTransactionSchedule now schedule token) s in
  (LinkToDeath t ∈ log ↔ schedule = Schedule.EarlyStart ∧ token = Some t)
  ∧ (UnlinkToDeath t ∈ log
     ↔ schedule = Schedule.EarlyEnd ∧ token = Some t
       ∧ t ∈ mEarlyWakeupRequests s)
  ∧ ((∃ msg, Warn msg ∈ log)
     ↔ (schedule = Schedule.EarlyStart ∧ token = None)
       ∨ (schedule = Schedule.EarlyEnd ∧ token_missing token s))
  ∧ (∀ c : Call,
       (∀ now' schedule' token',
          c ≠ CallSetTransactionSchedule now' schedule' token') →
       Forall (λ e, match e with
                    | Lock | Unlock | Store _ => True
                    | _ => False
                    end) (events (call c) s)).
Proof.
  intros log. subst log. unfold token_missing. split_and!.
  - destruct schedule, token as [t0|]; run_on s;
      rewrite ?elem_of_cons, ?elem_of_nil; first [lia | naive_solver].
  - destruct schedule, token as [t0|]; run_on s;
      rewrite ?elem_of_cons, ?elem_of_nil; first [lia | naive_solver].
  - destruct schedule, token as [t0|]; run_on s;
      repeat setoid_rewrite elem_of_cons; setoid_rewrite elem_of_nil;
      first [lia | naive_solver].
  - intros c Hc.
    destruct c as [cfg|now' schedule' token'|now'| | |gpu| |who|];
      [|exfalso; by eapply Hc| | | |destruct gpu| | |];
      run_on s; repeat constructor.
Qed.

(** X13. [binderDied] is idempotent, and the deaths of two binders commute:
    the order in which death notifications arrive does not matter. *)
Theorem binderDied_idempotent_commutes (a b : Token) (s : VsyncModulator) :
  exec (binderDied a) (exec (binderDied a) s) = exec (binderDied a) s
  ∧ exec (binderDied a) (exec (binderDied b) s)
    = exec (binderDied b) (exec (binderDied a) s).
Proof.
  rewrite !binderDied_exec. cbv zeta.
  destruct s as [configs active requests stored frames gpuFrames pending
                   started committed].
  simpl_state.
  assert (H1 : requests ∖ {[a]} ∖ {[a]} = requests ∖ {[a]}) by set_solver.
  assert (H2 : requests ∖ {[b]} ∖ {[a]} = requests ∖ {[a]} ∖ {[b]})
    by set_solver.
  unfold getNextVsyncConfig, getNextVsyncConfigType. simpl_state.
  by rewrite H1, H2.
Qed.

(** X14. A commit changes the classification only by clearing a stored
    [EarlyEnd]: on any other stored schedule the classification after
    [onTransactionCommit] is the one before it, and what the call returns on
    a stored [EarlyStart] is the configuration that was already selected. *)
Theorem commit_keeps_classification (now : TimePoint) (s : VsyncModulator) :
  mTransactionSchedule s ≠ Schedule.EarlyEnd →
  getNextVsyncConfigType (exec (onTransactionCommit now) s)
    = getNextVsyncConfigType s
  ∧ (mTransactionSchedule s = Schedule.EarlyStart →
     result (onTransactionCommit now) s = Some (getNextVsyncConfig s)).
Proof.
  intros Hs. run_on s; split; try done.
  all: by classify.
Qed.

(** X15. The two queries only read: [getVsyncConfig] and
    [isVsyncConfigEarly] leave every member as it is.  [isVsyncConfigEarly]
    answers no exactly when no urgency signal is live and the GPU counter is
    not positive, whatever the active configuration is; on a coherent state
    a no means that [getVsyncConfig] returns the late configuration. *)
Theorem queries_only_read (s : VsyncModulator) :
  exec getVsyncConfig s = s
  ∧ exec isVsyncConfigEarly s = s
  ∧ (result isVsyncConfigEarly s = false
     ↔ ¬ urgent s ∧ mEarlyGpuFrames s ≤ 0)
  ∧ (coherent s → result isVsyncConfigEarly s = false →
     result getVsyncConfig s = late (mVsyncConfigSet s)).
Proof.
  assert (Hq : result isVsyncConfigEarly s
               = bool_decide (getNextVsyncConfigType s ≠ VsyncConfigType.Late))
    by reflexivity.
  assert (Hno : result isVsyncConfigEarly s = false
                ↔ ¬ urgent s ∧ mEarlyGpuFrames s ≤ 0).
  { rewrite Hq, bool_decide_eq_false. clear Hq.
    destruct (decide (urgent s)) as [Hu|Hu].
    - rewrite (getNextVsyncConfigType_urgent s Hu). split.
      + intros Hn. exfalso. by apply Hn.
      + intros [? _]. done.
    - rewrite (getNextVsyncConfigType_calm s Hu).
      case_bool_decide; split.
      + intros Hn. exfalso. by apply Hn.
      + intros [_ ?]. lia.
      + intros _. split; [done|lia].
      + intros _ Hn. by apply Hn. }
  split_and!.
  - run_on s; done.
  - run_on s; done.
  - exact Hno.
  - unfold coherent. intros Hc Hres. apply Hno in Hres as [Hu Hg].
    rewrite getVsyncConfig_result, Hc. unfold getNextVsyncConfig.
    rewrite (getNextVsyncConfigType_calm s Hu).
    by rewrite bool_decide_false by lia.
Qed.

(** X16. What each call leaves alone: a member outside the footprint of a
    call has the same value after the call, and the call's log has no store
    to it.  So only [setTransactionSchedule] and [binderDied] change the
    pending set, only the refresh-rate methods change the flag, only
    [onTransactionCommit] moves the commit time and only an [EarlyEnd]
    request moves the start time. *)
Theorem calls_stay_in_footprint
    (c : Call) (f : Field) (s : VsyncModulator) :
  f ∉ footprint c →
  same_field f s (exec (call c) s) ∧ (Store f ∉ events (call c) s).
Proof.
  intros Hf.
  destruct c as [cfg|now schedule token|now| | |gpu| |who|];
    [|destruct schedule, token| | | |destruct gpu| | |];
    destruct f; cbn in Hf;
    try (exfalso; apply Hf; solve [in_log]).
  all: run_on s; split; try done; log_goal.
Qed.

(** ** Requests and the stored schedule *)

(** X17. A [Late] request never changes the classification nor the pending
    set: whatever token comes with it, it can only take a stored
    [EarlyStart] back to [Late], and the configuration it then returns is
    the one that was already selected. *)
Theorem Late_request_keeps_classification
    (now : TimePoint) (token : option Token) (s : VsyncModulator) :
  let m := setTransactionSchedule now Schedule.Late token in
  getNextVsyncConfigType (exec m s) = getNextVsyncConfigType s
  ∧ mEarlyWakeupRequests (exec m s) = mEarlyWakeupRequests s
  ∧ events m s ⊆ [Lock; Store FTransactionSchedule; Store FVsyncConfig; Unlock]
  ∧ (mTransactionSchedule s ≠ Schedule.EarlyStart →
     result m s = None ∧ exec m s = s)
  ∧ (mTransactionSchedule s = Schedule.EarlyStart →
     result m s = Some (getNextVsyncConfig s)
     ∧ mTransactionSchedule (exec m s) = Schedule.Late).
Proof.
  intros m. subst m.
  destruct token; run_on s; split_and!; intros; try done.
  all: try (by classify).
  all: try (by destruct stored).
  all: intros e; rewrite !elem_of_cons; naive_solver.
Qed.

Lemma call_keeps_EarlyEnd c s :
  is_onTransactionCommit c = false →
  mTransactionSchedule s = Schedule.EarlyEnd →
  mTransactionSchedule (exec (call c) s) = Schedule.EarlyEnd.
Proof.
  intros Hc Hs.
  destruct c as [cfg|now schedule token|now| | |gpu| |who|];
    [|destruct schedule, token| | | |destruct gpu| | |];
    try discriminate Hc; run_on s; done.
Qed.

(** X18. An [EarlyEnd] request sticks until the commit: after any
    [EarlyEnd] request, with or without a pending token, [EarlyEnd] is
    stored, and it stays stored, with the classification at [Early], through
    any calls of any methods other than [onTransactionCommit]. *)
Theorem EarlyEnd_sticks_until_commit
    (now : TimePoint) (token : option Token) (calls : list Call)
    (s : VsyncModulator) :
  Forall (λ c, is_onTransactionCommit c = false) calls →
  let s1 := exec (setTransactionSchedule now Schedule.EarlyEnd token) s in
  mTransactionSchedule s1 = Schedule.EarlyEnd
  ∧ mTransactionSchedule (run_calls calls s1) = Schedule.EarlyEnd
  ∧ getNextVsyncConfigType (run_calls calls s1) = VsyncConfigType.Early.
Proof.
  intros Hcalls s1.
  assert (H1 : mTransactionSchedule s1 = Schedule.EarlyEnd).
  { subst s1. rewrite setTransactionSchedule_schedule.
    destruct (mTransactionSchedule s); done. }
  clearbody s1.
  assert (Hkept : mTransactionSchedule (run_calls calls s1)
                  = Schedule.EarlyEnd).
  { revert s1 H1. induction Hcalls as [|c rest Hc _ IH]; intros s1 H1; [done|].
    cbn. apply IH. by apply call_keeps_EarlyEnd. }
  split_and!; [done..|]. by apply EarlyEnd_is_Early.
Qed.

End Properties.

(** ** The sample session, run *)

Section SessionFacts.

#[local] Existing Instance sample_header.

Example session_states :
  after_request
    = mkVsyncModulator sample_configs 1 {[binderA]} Schedule.EarlyStart
        0 0 false 0 0
  ∧ after_end = mkVsyncModulator sample_configs 1 ∅ Schedule.EarlyEnd 2 0 false 10 0
  ∧ after_commit = mkVsyncModulator sample_configs 1 ∅ Schedule.Late 2 0 false 10 20
  ∧ stale
    = mkVsyncModulator sample_configs 3 {[binderA]} Schedule.EarlyStart
        0 0 false 0 0.
Proof. vm_compute. by split_and!. Qed.

Lemma setTransactionSchedule_sticky_witness :
  mTransactionSchedule after_end = Schedule.EarlyEnd
  ∧ mTransactionSchedule
      (run_calls (map request_call sample_requests) after_end)
    = Schedule.EarlyEnd
  ∧ getNextVsyncConfigType
      (run_calls (map request_call sample_requests) after_end)
    = VsyncConfigType.Early.
Proof.
  assert (H : mTransactionSchedule after_end = Schedule.EarlyEnd)
    by (vm_compute; reflexivity).
  split; [exact H|].
  exact (proj2 (proj2
           (setTransactionSchedule_sticky 0 Schedule.Late None after_end))
           H sample_requests).
Defined.

(** With a positive frame constant the state right after the commit of
    scenario A has no pending request, a stored [Late], no refresh-rate change
    and a zero GPU counter, and still classifies as [Early]. *)
Lemma scenario_A_commit_stays_Early :
  mEarlyWakeupRequests after_commit = ∅
  ∧ mTransactionSchedule after_commit = Schedule.Late
  ∧ mRefreshRateChangePending after_commit = false
  ∧ mEarlyGpuFrames after_commit = 0
  ∧ mEarlyTransactionFrames after_commit = 2
  ∧ getNextVsyncConfigType after_commit = VsyncConfigType.Early
  ∧ getNextVsyncConfigType after_commit ≠ VsyncConfigType.Late.
Proof. vm_compute. by split_and!. Qed.

Lemma scenario_A_witness :
  10 + MIN_EARLY_TRANSACTION_TIME ≤ 2000000
  ∧ getNextVsyncConfigType (refreshes 1 after_late_commit)
    = VsyncConfigType.Early
  ∧ getNextVsyncConfigType (refreshes 2 after_late_commit)
    = VsyncConfigType.Late.
Proof.
  assert (H : 10 + MIN_EARLY_TRANSACTION_TIME ≤ 2000000)
    by (vm_compute; discriminate).
  pose proof (proj2 (proj2 (proj2
                (scenario_A sample_configs binderA 0 10 2000000))) H)
    as Hdecay.
  split; [exact H|]. split.
  - exact (Hdecay 1%nat).
  - exact (Hdecay 2%nat).
Defined.

(** On a new modulator a token-less [EarlyStart] is not a no-op: it stores
    [EarlyStart] and returns the late configuration; and an [EarlyEnd]
    without a token, or with a token that is not pending, moves the
    classification from [Late] to [Early] and returns the early
    configuration. *)
Lemma misuse_requests_change_state :
  exec (setTransactionSchedule 0 Schedule.EarlyStart None) fresh ≠ fresh
  ∧ mTransactionSchedule
      (exec (setTransactionSchedule 0 Schedule.EarlyStart None) fresh)
    = Schedule.EarlyStart
  ∧ result (setTransactionSchedule 0 Schedule.EarlyStart None) fresh
    = Some 3
  ∧ getNextVsyncConfigType fresh = VsyncConfigType.Late
  ∧ getNextVsyncConfigType
      (exec (setTransactionSchedule 0 Schedule.EarlyEnd None) fresh)
    = VsyncConfigType.Early
  ∧ result (setTransactionSchedule 0 Schedule.EarlyEnd None) fresh = Some 1
  ∧ mTransactionSchedule
      (exec (setTransactionSchedule 0 Schedule.EarlyEnd (Some binderB))
         after_request)
    = Schedule.EarlyEnd
  ∧ result (setTransactionSchedule 0 Schedule.EarlyEnd (Some binderB))
      after_request
    = Some 1.
Proof.
  split.
  - intros H. apply (f_equal mTransactionSchedule) in H.
    vm_compute in H. discriminate H.
  - vm_compute. by split_and!.
Qed.

Lemma misuse_requests_witness :
  token_missing (Some binderB) after_request
  ∧ mEarlyWakeupRequests
      (exec (setTransactionSchedule 5 Schedule.EarlyEnd (Some binderB))
         after_request)
    = mEarlyWakeupRequests after_request
  ∧ mTransactionSchedule
      (exec (setTransactionSchedule 5 Schedule.EarlyEnd (Some binderB))
         after_request)
    = Schedule.EarlyEnd.
Proof.
  assert (H : token_missing (Some binderB) after_request)
    by (vm_compute; discriminate).
  destruct (proj2 (misuse_requests 5 (Some binderB) after_request) H)
    as (Hreq & _ & _ & _ & _ & Hsched & _).
  split; [exact H|]. split; [exact Hreq|exact Hsched].
Defined.

(** The death of a pending token and an [EarlyEnd] for it part ways: the
    first leaves the stored schedule, the counter and a [Late]
    classification, the second stores [EarlyEnd], starts the grace window and
    classifies as [Early].  And the death of a token that is not pending
    still rewrites a stale active configuration. *)
Lemma binderDied_is_not_EarlyEnd :
  (binderA ∈ mEarlyWakeupRequests after_request)
  ∧ mTransactionSchedule (exec (binderDied binderA) after_request)
    = Schedule.EarlyStart
  ∧ mTransactionSchedule after_end = Schedule.EarlyEnd
  ∧ mEarlyTransactionFrames (exec (binderDied binderA) after_request) = 0
  ∧ mEarlyTransactionFrames after_end = 2
  ∧ getNextVsyncConfigType (exec (binderDied binderA) after_request)
    = VsyncConfigType.Late
  ∧ getNextVsyncConfigType after_end = VsyncConfigType.Early
  ∧ (binderB ∉ mEarlyWakeupRequests stale)
  ∧ mVsyncConfig stale = 3
  ∧ mVsyncConfig (exec (binderDied binderB) stale) = 1
  ∧ exec (binderDied binderB) stale ≠ stale.
Proof.
  split_and!; vm_compute; done.
Qed.

Lemma binderDied_spec_witness :
  (binderB ∉ mEarlyWakeupRequests fresh)
  ∧ mVsyncConfig fresh = getNextVsyncConfig fresh
  ∧ exec (binderDied binderB) fresh = fresh.
Proof.
  assert (H : binderB ∉ mEarlyWakeupRequests fresh)
    by (vm_compute; discriminate).
  assert (Hactive : mVsyncConfig fresh = getNextVsyncConfig fresh)
    by (vm_compute; reflexivity).
  destruct (binderDied_spec 0 binderB fresh) as (_ & _ & _ & _ & Hout).
  destruct (Hout H) as (_ & _ & Hnoop).
  split; [exact H|]. split; [exact Hactive|exact (Hnoop Hactive)].
Defined.

Lemma decay_counters_bounded_witness :
  (0 ≤ 2 ∧ 0 ≤ 2)
  ∧ 0 ≤ mEarlyTransactionFrames (run_calls sample_calls fresh)
  ∧ 0 ≤ mEarlyGpuFrames (run_calls sample_calls fresh).
Proof.
  assert (H : 0 ≤ 2) by (vm_compute; discriminate).
  split; [by split|].
  exact (proj1 (decay_counters_bounded H H) sample_configs sample_calls).
Defined.

(** A commit, an [EarlyStart] request, a second commit: no [EarlyEnd] came in
    between, and the second commit returns a configuration and moves the
    stored schedule from [EarlyStart] to [Late]. *)
Lemma second_commit_after_EarlyStart :
  mTransactionSchedule after_rearm = Schedule.EarlyStart
  ∧ result (onTransactionCommit 40) after_rearm = Some 1
  ∧ result (onTransactionCommit 40) after_rearm ≠ None
  ∧ mTransactionSchedule (exec (onTransactionCommit 40) after_rearm)
    = Schedule.Late.
Proof. vm_compute. by split_and!. Qed.

Lemma onTransactionCommit_spec_witness :
  mTransactionSchedule after_end = Schedule.EarlyEnd
  ∧ mTransactionSchedule after_commit = Schedule.Late
  ∧ Forall (λ c, rearms c = false) quiet_calls
  ∧ result (onTransactionCommit 40) (run_calls quiet_calls after_commit)
    = None.
Proof.
  assert (H : mTransactionSchedule after_end = Schedule.EarlyEnd)
    by (vm_compute; reflexivity).
  assert (Hquiet : Forall (λ c, rearms c = false) quiet_calls)
    by (repeat constructor).
  destruct (onTransactionCommit_spec 20 after_end)
    as (_ & _ & _ & _ & Hclear & Hagain).
  destruct (Hagain quiet_calls 40 Hquiet) as (Hnone & _).
  split; [exact H|]. split; [exact (Hclear H)|]. split; [exact Hquiet|].
  exact Hnone.
Defined.

Lemma scenario_C_witness :
  mEarlyWakeupRequests fresh = ∅
  ∧ mEarlyWakeupRequests (exec (binderDied binderA) after_request) = ∅
  ∧ mEarlyTransactionFrames (exec (binderDied binderA) after_request) = 0
  ∧ getNextVsyncConfigType (exec (binderDied binderA) after_request)
    = VsyncConfigType.Late.
Proof.
  assert (H : mEarlyWakeupRequests fresh = ∅) by reflexivity.
  destruct (scenario_C 0 binderA fresh H)
    as (_ & _ & Hreq & _ & _ & Hframes & _ & _ & _ & _ & _ & Hlate).
  split; [exact H|]. split; [exact Hreq|]. split; [exact Hframes|].
  exact (Hlate sample_configs eq_refl).
Defined.

Lemma EarlyStart_again_is_silent_witness :
  early sample_configs ≠ late sample_configs
  ∧ result getVsyncConfig stale = late sample_configs
  ∧ getNextVsyncConfig stale = early sample_configs
  ∧ result getVsyncConfig stale ≠ getNextVsyncConfig stale.
Proof.
  assert (H : early sample_configs ≠ late sample_configs)
    by (vm_compute; discriminate).
  destruct (proj2 (EarlyStart_again_is_silent sample_configs 0 1 binderA H))
    as (_ & _ & Hactive & Hnext & Hdiff).
  split; [exact H|]. split; [exact Hactive|]. split; [exact Hnext|exact Hdiff].
Defined.


(** ** The further properties on the sample session *)

Lemma calls_keep_coherence_witness :
  coherent fresh
  ∧ repeats_EarlyStart (CallOnDisplayRefresh true) fresh = false
  ∧ coherent (exec (call (CallOnDisplayRefresh true)) fresh).
Proof.
  assert (H : coherent fresh) by (vm_compute; reflexivity).
  split; [exact H|]. split; [reflexivity|].
  exact (proj1 (calls_keep_coherence (CallOnDisplayRefresh true) fresh)
           H eq_refl).
Defined.

Lemma refresh_rate_change_round_trip_witness :
  mRefreshRateChangePending fresh = false
  ∧ coherent fresh
  ∧ exec onRefreshRateChangeCompleted (exec onRefreshRateChangeInitiated fresh)
    = fresh.
Proof.
  assert (H : mRefreshRateChangePending fresh = false) by reflexivity.
  assert (Hc : coherent fresh) by (vm_compute; reflexivity).
  destruct (refresh_rate_change_round_trip fresh H) as (_ & _ & _ & _ & Hback).
  split; [exact H|]. split; [exact Hc|exact (Hback Hc)].
Defined.

Lemma pending_token_keeps_Early_witness :
  (binderA ∈ mEarlyWakeupRequests after_request)
  ∧ Forall (λ c, releases binderA c = false) other_calls
  ∧ getNextVsyncConfigType (run_calls other_calls after_request)
    = VsyncConfigType.Early.
Proof.
  assert (H : binderA ∈ mEarlyWakeupRequests after_request)
    by (vm_compute; reflexivity).
  assert (Hcalls : Forall (λ c, releases binderA c = false) other_calls)
    by (repeat constructor).
  split; [exact H|]. split; [exact Hcalls|].
  exact (proj2 (pending_token_keeps_Early binderA other_calls after_request
                  H Hcalls)).
Defined.

Lemma gpu_window_decay_witness :
  ¬ urgent fresh
  ∧ getNextVsyncConfigType (refreshes 1 (exec (onDisplayRefresh true) fresh))
    = VsyncConfigType.EarlyGpu
  ∧ getNextVsyncConfigType (refreshes 2 (exec (onDisplayRefresh true) fresh))
    = VsyncConfigType.Late.
Proof.
  assert (H : ¬ urgent fresh).
  { unfold urgent. cbn. intros [H|[H|[H|H]]];
      [by apply H|discriminate H|discriminate H|discriminate H]. }
  split; [exact H|]. split.
  - exact (proj2 (proj2 (gpu_window_decay fresh 1%nat H))).
  - exact (proj2 (proj2 (gpu_window_decay fresh 2%nat H))).
Defined.

Lemma onDisplayRefresh_idle_witness :
  stamps_fit after_commit
  ∧ result (onDisplayRefresh false) after_commit = None
  ∧ exec (onDisplayRefresh false) after_commit = after_commit
  ∧ events (onDisplayRefresh false) after_commit = [].
Proof.
  assert (H : stamps_fit after_commit)
    by (vm_compute; split_and!; discriminate).
  assert (Hidle : result (onDisplayRefresh false) after_commit = None)
    by (vm_compute; reflexivity).
  destruct (proj2 (onDisplayRefresh_idle false after_commit H) Hidle)
    as [Hsame Hlog].
  split; [exact H|]. split; [exact Hidle|]. split; [exact Hsame|exact Hlog].
Defined.


Lemma commit_keeps_classification_witness :
  mTransactionSchedule after_request ≠ Schedule.EarlyEnd
  ∧ getNextVsyncConfigType (exec (onTransactionCommit 20) after_request)
    = getNextVsyncConfigType after_request.
Proof.
  assert (H : mTransactionSchedule after_request ≠ Schedule.EarlyEnd)
    by (vm_compute; discriminate).
  split; [exact H|].
  exact (proj1 (commit_keeps_classification 20 after_request H)).
Defined.

Lemma calls_stay_in_footprint_witness :
  (FTransactionSchedule ∉ footprint (CallBinderDied binderA))
  ∧ mTransactionSchedule (exec (call (CallBinderDied binderA)) after_request)
    = mTransactionSchedule after_request.
Proof.
  assert (H : FTransactionSchedule ∉ footprint (CallBinderDied binderA)).
  { cbn. rewrite !not_elem_of_cons. split_and!; try discriminate.
    apply not_elem_of_nil. }
  split; [exact H|].
  exact (proj1 (calls_stay_in_footprint (CallBinderDied binderA)
                  FTransactionSchedule after_request H)).
Defined.

Lemma EarlyEnd_sticks_until_commit_witness :
  Forall (λ c, is_onTransactionCommit c = false) quiet_calls
  ∧ getNextVsyncConfigType (run_calls quiet_calls after_end)
    = VsyncConfigType.Early.
Proof.
  assert (H : Forall (λ c, is_onTransactionCommit c = false) quiet_calls)
    by (repeat constructor).
  split; [exact H|].
  exact (proj2 (proj2 (EarlyEnd_sticks_until_commit 10 (Some binderA)
                         quiet_calls after_request H))).
Defined.

End SessionFacts.
